(** * Shallow embedding of the ai-workflow-system orchestration core

    Sources embedded here:
    - [src/ai-workflow/workflow-runner.py]: [is_gate_required], the MVP
      orchestrator ([execute_workflow], [_execute_step],
      [_execute_human_gate], [_execute_document_workflow]);
    - [src/dev_workflow/enterprise-ai-workflow-runner.py]:
      [is_enterprise_gate_required] and [execute_enterprise_workflow];
    - [src/ai-workflow/llm_api_integration.py]: [generate_content] and
      [_validate_response];
    - [src/ai-workflow/content_generation_engine.py]:
      [_create_specialized_prompt], [_post_process_content] and
      [ContentGenerationEngine.generate_content];
    - [src/ai-workflow/workflow-executor.py]:
      [WorkflowContext.save_to_manifest].

    Python strings are modelled as Rocq [string]s (byte strings); the
    operator answers used by the gates are ASCII.  Python [float]s used for
    costs are modelled as rationals [Q]: only comparisons and sums of
    them matter below. *)

From Stdlib Require Import String Ascii List ZArith QArith Bool Lia.
From Stdlib Require Import DecimalString.
Import ListNotations.

Open Scope string_scope.

(** ** Python string and dictionary helpers *)
Module Py.

(** Python exceptions raised along the embedded paths. *)
Inductive exn :=
| KeyError
| TypeError
| ValueError
| EOFError
| KeyboardInterrupt
| OSError
| AttributeError
| RuntimeError (msg : string)
| ProviderError (msg : string).

(** [ch.isspace()] for an ASCII character: 9..13, 28..31 and 32. *)
Definition is_space (c : ascii) : bool :=
  let n := nat_of_ascii c in
  ((9 <=? n) && (n <=? 13) || (28 <=? n) && (n <=? 32))%nat.

(** [ch.lower()] for an ASCII character. *)
Definition lower_char (c : ascii) : ascii :=
  let n := nat_of_ascii c in
  if ((65 <=? n) && (n <=? 90))%nat then ascii_of_nat (n + 32)%nat else c.

Fixpoint lower (s : string) : string :=
  match s with
  | EmptyString => EmptyString
  | String c s' => String (lower_char c) (lower s')
  end.

Fixpoint lstrip (s : string) : string :=
  match s with
  | EmptyString => EmptyString
  | String c s' => if is_space c then lstrip s' else s
  end.

Definition rstrip (s : string) : string :=
  string_of_list_ascii
    (rev (list_ascii_of_string (lstrip (string_of_list_ascii
       (rev (list_ascii_of_string s)))))).

(** [s.strip()] *)
Definition strip (s : string) : string := rstrip (lstrip s).

(** [s.startswith(p)] *)
Definition startswith (s p : string) : bool := String.prefix p s.

(** [sub in s] *)
Fixpoint contains (sub s : string) : bool :=
  String.prefix sub s ||
  match s with
  | EmptyString => false
  | String _ s' => contains sub s'
  end.

(** Python truthiness of a string. *)
Definition truthy (s : string) : bool :=
  match s with EmptyString => false | _ => true end.

(** A JSON object / Python dict with string keys, as parsed by
    [json.load]: an association list without duplicate keys. *)
Definition dict (A : Type) := list (string * A).

Fixpoint lookup {A} (k : string) (d : dict A) : option A :=
  match d with
  | [] => None
  | (k', v) :: d' => if String.eqb k k' then Some v else lookup k d'
  end.

(** [d.get(k, default)] *)
Definition get {A} (d : dict A) (k : string) (default : A) : A :=
  match lookup k d with Some v => v | None => default end.

End Py.

Import Py.

(** ** Gate policy resolver of the MVP runner (workflow-runner.py) *)
Module Gate.

Inductive AutomationMode := GUIDED | AUTONOMOUS | LEARNING.

Definition mode_value (m : AutomationMode) : string :=
  match m with
  | GUIDED => "guided"
  | AUTONOMOUS => "autonomous"
  | LEARNING => "learning"
  end.

Inductive GateDecision := REQUIRED | OPTIONAL | SKIP | LEARN_FROM_HISTORY.

Record WorkflowStep := {
  number : string;
  doc_name : string;
  phase : string;
  gate_name : string;
  dependencies : list string
}.

Record ExecutionContext := {
  feature_name : string;
  mode : AutomationMode;
  project_root : string;
  feature_dir : option string;
  risk_score : Q
}.

(** [self.config['automation_modes'][mode]['gates']]: for every mode value
    present in the configuration, its gate table (gate name -> behavior
    string).  A mode absent from it (or without a [gates] entry) raises
    [KeyError]. *)
Definition Config := dict (dict string).

Definition mode_gates (cfg : Config) (m : AutomationMode)
  : option (dict string) :=
  lookup (mode_value m) cfg.

Definition _evaluate_learning_gate (step : WorkflowStep)
  (context : ExecutionContext) : GateDecision := REQUIRED.

Definition _evaluate_technology_gate (step : WorkflowStep)
  (context : ExecutionContext) : GateDecision := OPTIONAL.

Definition _evaluate_destructive_gate (step : WorkflowStep)
  (context : ExecutionContext) : GateDecision :=
  if String.eqb (gate_name step) "task_implementation" then REQUIRED
  else OPTIONAL.

(** [is_gate_required]; [None] is the [KeyError] of the configuration
    lookup. *)
Definition is_gate_required (cfg : Config) (step : WorkflowStep)
  (context : ExecutionContext) : option GateDecision :=
  match mode_gates cfg (mode context) with
  | None => None
  | Some gate_config =>
    let gate_behavior := get gate_config (gate_name step) "required" in
    Some (
      if String.eqb gate_behavior "required" then REQUIRED
      else if String.eqb gate_behavior "optional" then OPTIONAL
      else if String.eqb gate_behavior "skip" then SKIP
      else if String.eqb gate_behavior "learn_from_history" then
        _evaluate_learning_gate step context
      else if String.eqb gate_behavior "required_for_new_tech" then
        _evaluate_technology_gate step context
      else if String.eqb gate_behavior "required_for_destructive" then
        _evaluate_destructive_gate step context
      else REQUIRED)
  end.

(** The behavior strings this resolver recognises. *)
Definition known_behavior (b : string) : bool :=
  existsb (String.eqb b)
    ["required"; "optional"; "skip"; "learn_from_history";
     "required_for_new_tech"; "required_for_destructive"].

End Gate.

(** ** Gate policy resolver of the enterprise runner *)
Module EGate.

Inductive GateDecision :=
| REQUIRED | OPTIONAL | SKIP | LEARN_FROM_HISTORY | APPROVAL_BOARD_REQUIRED.

Inductive ComplianceFramework := GDPR | SOC2 | PCI | HIPAA | ISO27001.

Record EnterpriseWorkflowStep := {
  number : string;
  doc_name : string;
  phase : string;
  gate_name : string;
  dependencies : list string;
  compliance_impact : bool
}.

Record EnterpriseExecutionContext := {
  feature_name : string;
  mode : Gate.AutomationMode;
  project_root : string;
  risk_score : Q;
  compliance_framework : option ComplianceFramework;
  multi_team_coordination : bool;
  architecture_impact : bool
}.

(** Truthiness of [context.compliance_framework]: an enum member is true. *)
Definition has_framework (context : EnterpriseExecutionContext) : bool :=
  match compliance_framework context with Some _ => true | None => false end.

Definition _evaluate_enterprise_learning_gate (step : EnterpriseWorkflowStep)
  (context : EnterpriseExecutionContext) : GateDecision := REQUIRED.

Definition _evaluate_architecture_gate (step : EnterpriseWorkflowStep)
  (context : EnterpriseExecutionContext) : GateDecision :=
  if architecture_impact context then REQUIRED else OPTIONAL.

Definition _evaluate_compliance_gate (step : EnterpriseWorkflowStep)
  (context : EnterpriseExecutionContext) : GateDecision :=
  if has_framework context && compliance_impact step then REQUIRED
  else OPTIONAL.

Definition _evaluate_production_gate (step : EnterpriseWorkflowStep)
  (context : EnterpriseExecutionContext) : GateDecision :=
  if String.eqb (gate_name step) "enterprise_task_creation" then REQUIRED
  else OPTIONAL.

(** [is_enterprise_gate_required]; [None] is the configuration
    [KeyError]. *)
Definition is_enterprise_gate_required (cfg : Gate.Config)
  (step : EnterpriseWorkflowStep) (context : EnterpriseExecutionContext)
  : option GateDecision :=
  match Gate.mode_gates cfg (mode context) with
  | None => None
  | Some gate_config =>
    let gate_behavior0 := get gate_config (gate_name step) "required" in
    let gate_behavior :=
      if has_framework context && compliance_impact step then
        (if String.eqb gate_behavior0 "skip" then "required"
         else gate_behavior0)
      else gate_behavior0 in
    Some (
      if String.eqb gate_behavior "required" then REQUIRED
      else if String.eqb gate_behavior "optional" then OPTIONAL
      else if String.eqb gate_behavior "skip" then SKIP
      else if String.eqb gate_behavior "learn_from_history" then
        _evaluate_enterprise_learning_gate step context
      else if String.eqb gate_behavior "required_for_new_architecture" then
        _evaluate_architecture_gate step context
      else if String.eqb gate_behavior "required_for_compliance_changes" then
        _evaluate_compliance_gate step context
      else if String.eqb gate_behavior "required_for_production_changes" then
        _evaluate_production_gate step context
      else if String.eqb gate_behavior "required_with_approval_board" then
        APPROVAL_BOARD_REQUIRED
      else REQUIRED)
  end.

Definition known_behavior (b : string) : bool :=
  existsb (String.eqb b)
    ["required"; "optional"; "skip"; "learn_from_history";
     "required_for_new_architecture"; "required_for_compliance_changes";
     "required_for_production_changes"; "required_with_approval_board"].

End EGate.

(** ** Operator I/O and the orchestrators' state

    The runners interact with the operator through [input()]; a run is
    modelled as a state monad over the pending operator inputs and the
    trace of observable events (prompts shown, generation steps started),
    with Python exceptions as the error side. *)
Module IO.

(** One operator action at an [input()] call: a line, or Ctrl-C. *)
Inductive Inp := Line (s : string) | CtrlC.

Inductive Event :=
| EvConfirmPrompt
| EvGatePrompt (gate : string)
| EvBoardPrompt (gate : string)
| EvExecute (doc : string).

Record St := { inputs : list Inp; trace : list Event }.

Definition M (A : Type) := St -> (exn + A) * St.

Definition ret {A} (a : A) : M A := fun st => (inr a, st).

Definition raise {A} (e : exn) : M A := fun st => (inl e, st).

Definition bind {A B} (m : M A) (k : A -> M B) : M B :=
  fun st => match m st with
            | (inl e, st') => (inl e, st')
            | (inr a, st') => k a st'
            end.

Notation "x <- m ;; k" := (bind m (fun x => k))
  (at level 61, m at next level, right associativity).
Notation "m ;;; k" := (bind m (fun _ => k))
  (at level 61, right associativity).

Definition emit (ev : Event) : M unit :=
  fun st => (inr tt, {| inputs := inputs st; trace := trace st ++ [ev] |}).

(** [input(prompt)]: shows the prompt, then reads one line; end of input
    raises [EOFError], Ctrl-C raises [KeyboardInterrupt]. *)
Definition input (ev : Event) : M string :=
  emit ev ;;;
  fun st => match inputs st with
            | [] => (inl EOFError, st)
            | Line s :: r => (inr s, {| inputs := r; trace := trace st |})
            | CtrlC :: r =>
              (inl KeyboardInterrupt, {| inputs := r; trace := trace st |})
            end.

(** [except Exception]: every modelled exception except
    [KeyboardInterrupt], which derives from [BaseException] only. *)
Definition is_Exception (e : exn) : bool :=
  match e with KeyboardInterrupt => false | _ => true end.

Definition catch_Exception {A} (m : M A) (h : exn -> M A) : M A :=
  fun st => match m st with
            | (inl e, st') => if is_Exception e then h e st' else (inl e, st')
            | r => r
            end.

End IO.

Import IO.

(** ** The MVP orchestrator (workflow-runner.py) *)
Module Runner.
Import Gate.

(** The parts of the environment the step execution consults:
    whether [lean-workflow/<doc_name>] exists, and the boolean outcome of
    [WorkflowDocumentExecutor.execute_workflow_document] (which, with the
    surrounding [try], never raises). *)
Record Env := {
  doc_exists : string -> bool;
  run_executor : WorkflowStep -> bool
}.

(** The [while True] loop of [_execute_human_gate] over the operator's
    answers, [response = input(...).lower().strip()].  The ['?'] branch
    formats [step.number - 1] with [number] a [str], which raises
    [TypeError]; only [KeyboardInterrupt] is caught inside the loop. *)
Fixpoint gate_loop (step : WorkflowStep) (ins : list Inp)
  : (exn + bool) * list Inp :=
  match ins with
  | [] => (inl EOFError, [])
  | CtrlC :: r => (inr false, r)
  | Line s :: r =>
    let response := strip (lower s) in
    if String.eqb response "y" then (inr true, r)
    else if String.eqb response "n" || String.eqb response "" then (inr false, r)
    else if String.eqb response "s" then (inr true, r)
    else if String.eqb response "?" then (inl TypeError, r)
    else gate_loop step r
  end.

Definition _execute_human_gate (step : WorkflowStep) : M bool :=
  emit (EvGatePrompt (gate_name step)) ;;;
  fun st => let '(res, rest) := gate_loop step (inputs st) in
            (res, {| inputs := rest; trace := trace st |}).

(** [_execute_document_workflow]: fails when the workflow document is
    absent, otherwise runs the document executor. *)
Definition _execute_document_workflow (env : Env) (step : WorkflowStep)
  : M bool :=
  if negb (doc_exists env (doc_name step)) then ret false
  else emit (EvExecute (doc_name step)) ;;; ret (run_executor env step).

Definition _execute_step (env : Env) (step : WorkflowStep)
  (gate_decision : GateDecision) : M bool :=
  match gate_decision with
  | REQUIRED =>
    ok <- _execute_human_gate step ;;
    if ok then _execute_document_workflow env step else ret false
  | _ => _execute_document_workflow env step
  end.

Fixpoint create_execution_plan (cfg : Config) (steps : list WorkflowStep)
  (context : ExecutionContext) : option (list (WorkflowStep * GateDecision)) :=
  match steps with
  | [] => Some []
  | s :: rest =>
    match is_gate_required cfg s context, create_execution_plan cfg rest context with
    | Some d, Some p => Some ((s, d) :: p)
    | _, _ => None
    end
  end.

(** The [for step, gate_decision in plan] loop with its
    [try ... except Exception]. *)
Fixpoint run_plan (env : Env) (plan : list (WorkflowStep * GateDecision))
  : M bool :=
  match plan with
  | [] => ret true
  | (step, gate_decision) :: rest =>
    ok <- catch_Exception (_execute_step env step gate_decision)
                          (fun _ => ret false) ;;
    if ok then run_plan env rest else ret false
  end.

Definition execute_workflow (env : Env) (cfg : Config)
  (steps : list WorkflowStep) (context : ExecutionContext) (dry_run : bool)
  : M bool :=
  match create_execution_plan cfg steps context with
  | None => raise KeyError
  | Some plan =>
    if dry_run then ret true
    else if String.eqb (mode_value (mode context)) "autonomous" then
      run_plan env plan
    else
      response <- input EvConfirmPrompt ;;
      if negb (String.eqb (lower response) "y") then ret false
      else run_plan env plan
  end.

End Runner.

(** ** The enterprise orchestrator (enterprise-ai-workflow-runner.py) *)
Module ERunner.
Import EGate.

Definition _execute_enterprise_human_gate (step : EnterpriseWorkflowStep)
  (gate_decision : GateDecision) : M bool :=
  response <- input (match gate_decision with
                     | APPROVAL_BOARD_REQUIRED => EvBoardPrompt (gate_name step)
                     | _ => EvGatePrompt (gate_name step)
                     end) ;;
  ret (String.eqb (lower response) "y").

(** [_execute_enterprise_document_workflow] only simulates the step. *)
Definition _execute_enterprise_document_workflow (step : EnterpriseWorkflowStep)
  : M bool :=
  emit (EvExecute (doc_name step)) ;;; ret true.

Definition _execute_enterprise_step (step : EnterpriseWorkflowStep)
  (gate_decision : GateDecision) : M bool :=
  match gate_decision with
  | REQUIRED | APPROVAL_BOARD_REQUIRED =>
    ok <- _execute_enterprise_human_gate step gate_decision ;;
    if ok then _execute_enterprise_document_workflow step else ret false
  | _ => _execute_enterprise_document_workflow step
  end.

Fixpoint create_enterprise_execution_plan (cfg : Gate.Config)
  (steps : list EnterpriseWorkflowStep) (context : EnterpriseExecutionContext)
  : option (list (EnterpriseWorkflowStep * GateDecision)) :=
  match steps with
  | [] => Some []
  | s :: rest =>
    match is_enterprise_gate_required cfg s context,
          create_enterprise_execution_plan cfg rest context with
    | Some d, Some p => Some ((s, d) :: p)
    | _, _ => None
    end
  end.

Fixpoint run_plan (plan : list (EnterpriseWorkflowStep * GateDecision))
  : M bool :=
  match plan with
  | [] => ret true
  | (step, gate_decision) :: rest =>
    ok <- catch_Exception (_execute_enterprise_step step gate_decision)
                          (fun _ => ret false) ;;
    if ok then run_plan rest else ret false
  end.

(** [execute_enterprise_workflow]: the run confirmation is asked in every
    mode. *)
Definition execute_enterprise_workflow (cfg : Gate.Config)
  (steps : list EnterpriseWorkflowStep) (context : EnterpriseExecutionContext)
  (dry_run : bool) : M bool :=
  match create_enterprise_execution_plan cfg steps context with
  | None => raise KeyError
  | Some plan =>
    if dry_run then ret true
    else
      response <- input EvConfirmPrompt ;;
      if negb (String.eqb (lower response) "y") then ret false
      else run_plan plan
  end.

End ERunner.

(** ** Provider adapter: usage tracking, retries, validation
    (llm_api_integration.py) *)
Module LLM.

Record LLMConfig := {
  provider : string;
  model : string;
  max_tokens : Z;
  temperature : Q;
  timeout : Z;
  max_retries : Z;
  cost_limit_usd : Q
}.

Record LLMRequest := {
  prompt : string;
  system_prompt : option string;
  context_data : option (dict string);
  expected_format : string;
  validation_criteria : option (list string)
}.

(** [LLMResponse]; its [provider] and [model] fields are named
    [resp_provider] and [resp_model] here. *)
Record LLMResponse := {
  content : string;
  resp_provider : string;
  resp_model : string;
  tokens_used : Z;
  cost_usd : Q;
  execution_time : Q;
  validated : bool;
  validation_errors : option (list string)
}.

(** [self.usage_tracker] *)
Record Tracker := { total_tokens : Z; total_cost_usd : Q }.

(** [int(s)] on an ASCII string: surrounding whitespace, an optional sign,
    decimal digits with single underscores between digits. *)
Fixpoint int_digits (l : list ascii) (acc : Z) (prev_digit : bool)
  : option Z :=
  match l with
  | [] => if prev_digit then Some acc else None
  | c :: r =>
    let n := nat_of_ascii c in
    if ((48 <=? n) && (n <=? 57))%nat then
      int_digits r (acc * 10 + Z.of_nat (n - 48))%Z true
    else if Ascii.eqb c "_"%char && prev_digit then int_digits r acc false
    else None
  end.

Definition py_int (s : string) : option Z :=
  match list_ascii_of_string (strip s) with
  | "+"%char :: r => int_digits r 0 false
  | "-"%char :: r => option_map Z.opp (int_digits r 0 false)
  | l => int_digits l 0 false
  end.

(** [s.split(":", 1)[1]], for an [s] containing a colon. *)
Fixpoint after_colon (s : string) : string :=
  match s with
  | EmptyString => EmptyString
  | String c s' => if Ascii.eqb c ":" then s' else after_colon s'
  end.

Fixpoint upto_colon (s : string) : string :=
  match s with
  | EmptyString => EmptyString
  | String c s' => if Ascii.eqb c ":" then EmptyString else String c (upto_colon s')
  end.

(** [s.split(":")[1]], for an [s] containing a colon. *)
Definition split_colon_1 (s : string) : string := upto_colon (after_colon s).

(** [f"{n}"] for an integer. *)
Definition str_Z (n : Z) : string := NilZero.string_of_int (Z.to_int n).

(** One iteration of the criteria loop of [_validate_response]: [inr None]
    when the criterion passes or is not recognised, [inr (Some msg)] when
    it records a failure, [inl e] when evaluating it raises. *)
Definition check_criterion (content : string) (criterion : string)
  : exn + option string :=
  if String.eqb (lower criterion) "not_empty" && negb (truthy (strip content)) then
    inr (Some "Content is empty")
  else if String.eqb (lower criterion) "contains_markdown" &&
          negb (existsb (fun marker => contains marker content)
                        ["#"; "*"; "`"; "-"]) then
    inr (Some "Content does not contain markdown formatting")
  else if startswith criterion "min_length:" then
    match py_int (split_colon_1 criterion) with
    | None => inl ValueError
    | Some min_length =>
      if (Z.of_nat (String.length content) <? min_length)%Z then
        inr (Some ("Content too short (< " ++ str_Z min_length ++ " characters)"))
      else inr None
    end
  else if startswith criterion "contains:" then
    let required_text := after_colon criterion in
    if negb (contains (lower required_text) (lower content)) then
      inr (Some ("Content does not contain required text: " ++ required_text))
    else inr None
  else inr None.

Fixpoint collect_errors (content : string) (criteria : list string)
  : exn + list string :=
  match criteria with
  | [] => inr []
  | c :: cs =>
    match check_criterion content c with
    | inl e => inl e
    | inr r =>
      match collect_errors content cs with
      | inl e => inl e
      | inr errs =>
        inr (match r with Some m => m :: errs | None => errs end)
      end
    end
  end.

Definition _validate_response (response : LLMResponse) (criteria : list string)
  : exn + LLMResponse :=
  match collect_errors (content response) criteria with
  | inl e => inl e
  | inr validation_errors =>
    inr {| content := content response;
           resp_provider := resp_provider response;
           resp_model := resp_model response;
           tokens_used := tokens_used response;
           cost_usd := cost_usd response;
           execution_time := execution_time response;
           validated := Nat.eqb (length validation_errors) 0;
           validation_errors := Some validation_errors |}
  end.

(** Observable effects of one [generate_content] call: the tracker, the
    number of provider calls made, and the [time.sleep] delays. *)
Record Run := { tracker : Tracker; calls : nat; sleeps : list Z }.

Definition record_call (r : Run) : Run :=
  {| tracker := tracker r; calls := S (calls r); sleeps := sleeps r |}.

Definition record_usage (r : Run) (response : LLMResponse) : Run :=
  {| tracker := {| total_tokens := total_tokens (tracker r) + tokens_used response;
                   total_cost_usd := total_cost_usd (tracker r) + cost_usd response |};
     calls := calls r; sleeps := sleeps r |}.

Definition record_sleep (r : Run) (d : Z) : Run :=
  {| tracker := tracker r; calls := calls r; sleeps := sleeps r ++ [d] |}.

Section Generate.

(** The provider call ([_generate_openai], [_generate_anthropic], ...) at
    the [attempt]-th try: a response or the exception it raises. *)
Variable call : nat -> exn + LLMResponse.

(** [for attempt in range(self.config.max_retries)]; the result is
    [inl e] when [e] is raised, [inr (Some r)] when [r] is returned and
    [inr None] when the loop ends without returning.  [except Exception]
    does not catch [KeyboardInterrupt], which leaves the loop at once. *)
Fixpoint attempts (request : LLMRequest) (n : Z) (atts : list nat) (r : Run)
  : (exn + option LLMResponse) * Run :=
  match atts with
  | [] => (inr None, r)
  | attempt :: rest =>
    let handle := fun (e : exn) (r' : Run) =>
      if is_Exception e then
        if (Z.of_nat attempt =? n - 1)%Z then (inl e, r')
        else attempts request n rest (record_sleep r' (2 ^ Z.of_nat attempt))
      else (inl e, r') in
    let r1 := record_call r in
    match call attempt with
    | inl e => handle e r1
    | inr response =>
      let r2 := record_usage r1 response in
      match validation_criteria request with
      | Some ((_ :: _) as criteria) =>
        match _validate_response response criteria with
        | inl e => handle e r2
        | inr response' => (inr (Some response'), r2)
        end
      | _ => (inr (Some response), r2)
      end
    end
  end.

Definition generate_content (config : LLMConfig) (usage_tracker : Tracker)
  (request : LLMRequest) : (exn + option LLMResponse) * Run :=
  let r0 := {| tracker := usage_tracker; calls := 0; sleeps := [] |} in
  if Qle_bool (cost_limit_usd config) (total_cost_usd usage_tracker) then
    (inl (RuntimeError "Cost limit exceeded"), r0)
  else
    attempts request (max_retries config)
      (seq 0 (Z.to_nat (max_retries config))) r0.

End Generate.

End LLM.

(** ** Content generation pipeline (content_generation_engine.py) *)
Module CGE.
Import LLM.

Record WorkflowContext := {
  feature_name : string;
  feature_slug : string;
  feature_dir : string;
  workflow_step : string;
  phase : string;
  project_data : dict string;
  previous_outputs : option (dict string)
}.

Record ContentGenerationRequest := {
  workflow_document : string;
  context : WorkflowContext;
  output_file : string;
  content_type : string;
  template_sections : option (dict string);
  ai_directives : option (list string)
}.

(** The parts of [self.llm_config_data] read while building a prompt:
    [workflow_specific_configs] (config key -> settings), and
    [prompt_engineering.common_instructions] and
    [prompt_engineering.validation_criteria], [None] when missing. *)
Record EngineConfig := {
  workflow_specific_configs : dict (dict string);
  common_instructions : option (list string);
  validation_criteria_config : option (dict (list string))
}.

(** State of a file path on disk: absent, readable as UTF-8 text, not
    openable or readable ([OSError]), or not valid UTF-8 (reading it with
    [encoding='utf-8'] raises [UnicodeDecodeError], a [ValueError]). *)
Inductive FileState := Missing | Present (body : string) | Unreadable | NotUtf8.

Fixpoint split_char (sep : ascii) (s : string) : list string :=
  match s with
  | EmptyString => [EmptyString]
  | String c s' =>
    if Ascii.eqb c sep then EmptyString :: split_char sep s'
    else match split_char sep s' with
         | w :: ws => String c w :: ws
         | [] => [String c EmptyString]
         end
  end.

Fixpoint join (sep : string) (l : list string) : string :=
  match l with
  | [] => EmptyString
  | [x] => x
  | x :: xs => x ++ sep ++ join sep xs
  end.

(** [s.split()]: whitespace-separated words. *)
Fixpoint words_aux (s : string) (cur : string) : list string :=
  match s with
  | EmptyString => if truthy cur then [cur] else []
  | String c s' =>
    if is_space c then (if truthy cur then cur :: words_aux s' EmptyString
                        else words_aux s' EmptyString)
    else words_aux s' (cur ++ String c EmptyString)
  end.

Definition words (s : string) : list string := words_aux s EmptyString.

(** [Path(s).name]: the last non-empty path component. *)
Definition path_name (s : string) : string :=
  last (filter truthy (split_char "/" s)) EmptyString.

Definition upper_char (c : ascii) : ascii :=
  let n := nat_of_ascii c in
  if ((97 <=? n) && (n <=? 122))%nat then ascii_of_nat (n - 32)%nat else c.

Fixpoint upper (s : string) : string :=
  match s with
  | EmptyString => EmptyString
  | String c s' => String (upper_char c) (upper s')
  end.

Definition substring_prefix (n : nat) (s : string) : string := substring 0 n s.

Definition nl : string := String "010"%char EmptyString.

Definition content_type_mapping : dict string :=
  [("mvp_entrypoint", "mvp_entrypoint"); ("prd", "gen_prd");
   ("srs", "gen_srs"); ("design_decisions", "gen_design_decisions");
   ("design_analysis", "gen_design"); ("tasks", "gen_tasks_and_testing");
   ("task_processing", "process_tasks");
   ("completion_summary", "gen_completion_summary");
   ("enterprise", "enterprise_scaling")].

Definition _extract_backend_from_stack (tech_stack : string) : string :=
  if negb (truthy tech_stack) then "Not specified"
  else if contains "Node.js" tech_stack && contains "Express" tech_stack then
    "Node.js + Express"
  else if contains "Python" tech_stack && contains "FastAPI" tech_stack then
    "Python + FastAPI"
  else if contains "Python" tech_stack && contains "Flask" tech_stack then
    "Python + Flask"
  else if contains "Node.js" tech_stack then "Node.js"
  else if contains "Python" tech_stack then "Python"
  else match split_char "+" tech_stack with
       | p :: _ => strip p
       | [] => "Not specified"
       end.

Definition _extract_frontend_from_stack (tech_stack : string) : string :=
  if negb (truthy tech_stack) then "Not specified"
  else if contains "Vanilla JS" tech_stack || contains "vanilla" (lower tech_stack)
  then "Vanilla JavaScript"
  else if contains "React" tech_stack then "React"
  else if contains "Vue" tech_stack then "Vue.js"
  else if contains "Angular" tech_stack then "Angular"
  else if contains "HTML/CSS/JS" tech_stack then "HTML/CSS/JavaScript"
  else if contains "JavaScript" tech_stack || contains "JS" tech_stack then
    "JavaScript"
  else "Not specified".

Definition _extract_database_from_stack (tech_stack : string) : string :=
  if negb (truthy tech_stack) then "Not specified"
  else if contains "SQLite" tech_stack then "SQLite"
  else if contains "PostgreSQL" tech_stack then "PostgreSQL"
  else if contains "MySQL" tech_stack then "MySQL"
  else if contains "MongoDB" tech_stack then "MongoDB"
  else "Not specified".

(** [_get_validation_criteria]: the default entry is read eagerly. *)
Definition _get_validation_criteria (cfg : EngineConfig) (content_type : string)
  : exn + list string :=
  match validation_criteria_config cfg with
  | None => inl KeyError
  | Some validation_config =>
    match lookup "default" validation_config with
    | None => inl KeyError
    | Some dflt => inr (get validation_config content_type dflt)
    end
  end.

Fixpoint repeat_str (n : nat) (s : string) : string :=
  match n with O => EmptyString | S k => s ++ repeat_str k s end.

Definition sum_bind {A B} (m : exn + A) (k : A -> exn + B) : exn + B :=
  match m with inl e => inl e | inr a => k a end.

Section Prompt.

(** [json.dumps(..., indent=2)] of the project data. *)
Variable json_dumps : dict string -> string.

(** The workflow-document block of [_create_specialized_prompt]: the
    document text when the path exists, the filename-only fallback when it
    does not; opening an existing but unreadable path raises. *)
Definition document_parts (fs : string -> FileState)
  (request : ContentGenerationRequest) : exn + list string :=
  let wd := workflow_document request in
  match fs wd with
  | Present workflow_content =>
    inr ["# Workflow Document: " ++ path_name wd;
         "## Complete Workflow Document Content:";
         "```markdown" ++ nl ++ workflow_content ++ nl ++ "```";
         nl ++ "**INSTRUCTION**: Follow the specific instructions, questions, and guidelines provided in the workflow document above."]
  | Unreadable => inl OSError
  | NotUtf8 => inl ValueError
  | Missing =>
    inr ["# Workflow Document: " ++ wd;
         "Please execute the instructions in the workflow document: " ++ wd]
  end.

Definition context_parts (request : ContentGenerationRequest) : list string :=
  let c := context request in
  [nl ++ "## Project Context";
   "- **Feature Name**: " ++ feature_name c;
   "- **Feature Slug**: " ++ feature_slug c;
   "- **Workflow Step**: " ++ workflow_step c;
   "- **Phase**: " ++ phase c;
   "- **Output File**: " ++ output_file request].

Definition project_data_parts (request : ContentGenerationRequest) : list string :=
  let pd := project_data (context request) in
  let g := get pd in
  match pd with
  | [] => []
  | _ =>
    app
    [nl ++ "## Project Data (CRITICAL CONTEXT)";
     "```json" ++ nl ++ json_dumps pd ++ nl ++ "```";
     nl ++ "## CRITICAL: Use Real Project Data";
     "**IMPORTANT**: The project data above contains REAL user answers from enhanced MVP initialization.";
     "- **Project Name**: `" ++ g "project_name" "Unknown Project" ++ "`";
     "- **Primary User**: `" ++ g "primary_user" "Unknown User" ++ "`";
     "- **Pain Point**: `" ++ g "user_pain_point" "Unknown Pain Point" ++ "`";
     "- **Tech Stack**: `" ++ g "recommended_tech_stack" "Unknown Tech Stack" ++ "`";
     "- **Business Model**: `" ++ g "business_model" "Unknown Business Model" ++ "`";
     "- **Success Metric**: `" ++ g "key_success_metric" "Unknown Metric" ++ "`"]
    (if String.eqb (content_type request) "mvp_entrypoint" then
       [nl ++ "**MVP ENTRYPOINT INSTRUCTIONS**:";
        "- Replace ALL placeholder fields with actual values from project data";
        "- Generate comprehensive, real documentation based on collected user data";
        "- Do NOT use placeholder text or field names"]
     else if String.eqb (content_type request) "tasks" then
       [nl ++ "**TASKS GENERATION INSTRUCTIONS**:";
        "- Use the EXACT tech stack: `" ++ g "recommended_tech_stack" "specified stack" ++ "`";
        "- Target the specific user type: `" ++ g "primary_user" "users" ++ "`";
        "- Address the specific pain point: `" ++ g "user_pain_point" "user needs" ++ "`";
        "- Align with business model: `" ++ g "business_model" "business approach" ++ "`";
        "- Target success metric: `" ++ g "key_success_metric" "success measures" ++ "`";
        "- Reference AI tech stack reasoning: `" ++ g "tech_stack_reasoning" "technical decisions" ++ "`"]
     else if String.eqb (content_type request) "design_decisions" then
       [nl ++ "**CRITICAL OVERRIDE: DESIGN DECISIONS INSTRUCTIONS**:";
        "**IGNORE WORKFLOW QUESTIONNAIRES** - The user has completed an ENHANCED AI-guided tech stack selection process.";
        "";
        "**SELECTED TECHNOLOGY STACK**: `" ++ g "recommended_tech_stack" "technologies" ++ "`";
        "- Backend: " ++ _extract_backend_from_stack (g "recommended_tech_stack" "");
        "- Frontend: " ++ _extract_frontend_from_stack (g "recommended_tech_stack" "");
        "- Database: " ++ _extract_database_from_stack (g "recommended_tech_stack" "");
        "";
        "**YOUR TASK**: Document these EXACT selections with rationale, learning resources, and implementation guidance.";
        "**DO NOT**: Run questionnaires, suggest alternatives, or make different tech choices.";
        "**DO**: Explain why these selections are good for: " ++ g "primary_user" "users" ++ " solving " ++ g "user_pain_point" "challenges";
        "**AI Selection Reasoning**: " ++ g "tech_stack_reasoning" "User made this selection with AI guidance";
        "**Alternative Options Considered**: " ++ g "alternative_options" "Other options were discussed";
        "";
        "**STRUCTURE**: Use the decision documentation format but populate with the SELECTED stack, not questionnaire results."]
     else if existsb (String.eqb (content_type request)) ["prd"; "srs"; "design_analysis"] then
       [nl ++ "**DOCUMENTATION INSTRUCTIONS**:";
        "- Incorporate user context: " ++ g "primary_user" "users" ++ " dealing with " ++ g "user_pain_point" "challenges";
        "- Use the selected tech stack: " ++ g "recommended_tech_stack" "technologies";
        "- Align with business value: " ++ g "business_model" "value creation";
        "- Target success criteria: " ++ g "key_success_metric" "success measures"]
     else [])
  end.

Definition previous_output_parts (request : ContentGenerationRequest) : list string :=
  match previous_outputs (context request) with
  | None | Some [] => []
  | Some outs =>
    (nl ++ "## Previous Workflow Outputs") ::
    flat_map (fun '(step, content) =>
      if truthy content && (100 <? String.length content)%nat then
        let truncated := if (500 <? String.length content)%nat
                         then substring_prefix 500 content ++ "..." else content in
        ["### " ++ step; "```" ++ nl ++ truncated ++ nl ++ "```"]
      else []) outs
  end.

Definition directive_parts (request : ContentGenerationRequest) : list string :=
  match ai_directives request with
  | None | Some [] => []
  | Some ds => (nl ++ "## AI Directives") :: map (fun d => "- " ++ d) ds
  end.

Definition template_parts (request : ContentGenerationRequest) : list string :=
  match template_sections request with
  | None | Some [] => []
  | Some secs =>
    (nl ++ "## Template Sections") ::
    flat_map (fun '(section_name, section_content) =>
      if truthy (strip section_content)
      then ["### " ++ section_name; section_content] else []) secs
  end.

Definition output_parts (request : ContentGenerationRequest) : list string :=
  [nl ++ "## Output Requirements";
   "- Generate content for: **" ++ output_file request ++ "**";
   "- Content type: **" ++ content_type request ++ "**";
   "- Use markdown formatting for clear structure";
   "- Follow the workflow document instructions precisely";
   "- Include all required sections and subsections";
   "- Make content practical and immediately actionable";
   nl ++ "## Feature-Centric Integration";
   "- Save content as: `" ++ output_file request ++ "` (relative path within feature directory)";
   "- Use relative references to other workflow documents (e.g., `./prd.md`, `./srs.md`)";
   "- Include appropriate linkages to related workflow documents"].

Definition final_override_parts (request : ContentGenerationRequest) : list string :=
  let pd := project_data (context request) in
  let g := get pd in
  if String.eqb (content_type request) "design_decisions" &&
     match pd with [] => false | _ => true end then
    [nl ++ nl ++ repeat_str 80 "=";
     "🚨 FINAL CRITICAL OVERRIDE - IGNORE ALL ABOVE QUESTIONNAIRES 🚨";
     repeat_str 80 "=";
     "";
     "❌ IGNORE: All workflow questionnaire instructions above";
     "✅ TASK: Document the user's ALREADY SELECTED tech stack";
     "";
     "📋 USER'S SELECTED STACK: " ++ g "recommended_tech_stack" "None";
     "🎯 USER'S TARGET: " ++ g "primary_user" "None" ++ " solving " ++ g "user_pain_point" "None";
     "💡 AI'S REASONING: " ++ g "tech_stack_reasoning" "None";
     "";
     "🔥 CRITICAL: Create a design decisions document that explains WHY the selected stack is good";
     "🔥 CRITICAL: Do NOT suggest different technologies or run any questionnaires";
     "🔥 CRITICAL: Focus on implementation guidance for the SELECTED stack only";
     "";
     repeat_str 80 "="]
  else [].

(** [_create_specialized_prompt] *)
Definition _create_specialized_prompt (cfg : EngineConfig)
  (fs : string -> FileState) (request : ContentGenerationRequest)
  : exn + LLMRequest :=
  let config_key := get content_type_mapping (content_type request) "gen_prd" in
  let sys_prompt := get (get (workflow_specific_configs cfg) config_key [])
                        "system_prompt" "You are a helpful AI assistant." in
  sum_bind (document_parts fs request) (fun doc_parts =>
  match common_instructions cfg with
  | None => inl KeyError
  | Some instrs =>
    let prompt_parts :=
      (doc_parts ++ context_parts request ++ project_data_parts request ++
       previous_output_parts request ++ directive_parts request ++
       template_parts request ++
       ((nl ++ "## Instructions")%string :: map (fun i => "- " ++ i)%string instrs) ++
       output_parts request ++ final_override_parts request)%list in
    let full_prompt := join nl prompt_parts in
    sum_bind (_get_validation_criteria cfg (content_type request)) (fun criteria =>
    inr {| prompt := full_prompt;
           system_prompt := Some sys_prompt;
           context_data := Some (project_data (context request));
           expected_format := "markdown";
           validation_criteria := Some criteria |})
  end).

(** The metadata header of [_post_process_content]; [now] is the
    formatted current time. *)
Definition _post_process_header (now : string) (request : ContentGenerationRequest)
  : string :=
  "# " ++ feature_name (context request) ++ " - " ++ upper (content_type request) ++
  nl ++ nl ++ "*Generated by automated workflow on " ++ now ++ "*" ++ nl ++ nl.

(** The clean-up of [_post_process_content]: strip the answer, and drop its
    first line when that line starts with [#] and contains a word of the
    lower-cased feature name. *)
Definition _clean_content (feature_name : string) (content : string) : string :=
  let cleaned_content := strip content in
  let lines := split_char "010"%char cleaned_content in
  match lines with
  | first :: rest =>
    if startswith first "#" &&
       existsb (fun word => contains word (lower first)) (words (lower feature_name))
    then strip (join nl rest)
    else cleaned_content
  | [] => cleaned_content
  end.

(** The workflow-integration footer of [_post_process_content]. *)
Definition _post_process_footer (request : ContentGenerationRequest) : string :=
  nl ++ nl ++ "---" ++ nl ++
  "*Generated by: " ++ workflow_document request ++ " | Step: " ++
  workflow_step (context request) ++ " | Phase: " ++ phase (context request) ++ "*" ++ nl.

(** [_post_process_content]; [now] is the formatted current time. *)
Definition _post_process_content (now : string) (content : string)
  (request : ContentGenerationRequest) : string :=
  _post_process_header now request ++
  _clean_content (feature_name (context request)) content ++
  _post_process_footer request.

(** [ContentGenerationEngine.generate_content].  [select] is
    [_select_llm_for_content_type]: the adapter configuration and its
    usage tracker, or the exception raised while building them;
    [call] is the provider behaviour seen by that adapter. *)
Definition generate_content (cfg : EngineConfig) (fs : string -> FileState)
  (select : string -> exn + (LLMConfig * Tracker))
  (call : nat -> exn + LLMResponse) (now : string)
  (request : ContentGenerationRequest) : exn + string :=
  sum_bind (select (content_type request)) (fun '(llm_config, tr) =>
  sum_bind (_create_specialized_prompt cfg fs request) (fun llm_request =>
  match fst (LLM.generate_content call llm_config tr llm_request) with
  | inl e => inl e
  | inr None => inl AttributeError
  | inr (Some response) => inr (_post_process_content now (content response) request)
  end)).

End Prompt.

End CGE.

(** ** Manifest store (workflow-executor.py) *)
Module Manifest.

(** JSON values as produced by [json.load]. *)
#[local] Set Warnings "-register-all".
Inductive json :=
| JNull
| JBool (b : bool)
| JNum (n : Z)
| JStr (s : string)
| JList (l : list json)
| JObj (d : list (string * json)).

(** [d[k] = v] on a dict: in place when [k] is present, appended last
    otherwise (insertion order). *)
Fixpoint set_key (k : string) (v : json) (d : list (string * json))
  : list (string * json) :=
  match d with
  | [] => [(k, v)]
  | (k', v') :: d' =>
    if String.eqb k k' then (k, v) :: d' else (k', v') :: set_key k v d'
  end.

Record WorkflowContext := {
  feature_name : string;
  feature_slug : string;
  feature_dir : string;
  mode : string;
  phase : string;
  step_number : string;
  generated_files : list string;
  execution_log : list string
}.

(** [_create_base_manifest]; [now] is the current UTC time in ISO format. *)
Definition _create_base_manifest (ctx : WorkflowContext) (now : string) : json :=
  JObj [("feature_metadata",
         JObj [("feature_name", JStr (feature_name ctx));
               ("feature_slug", JStr (feature_slug ctx));
               ("creation_date", JStr now);
               ("creator", JStr "workflow-executor")]);
        ("workflow_status",
         JObj [("current_phase", JStr (phase ctx));
               ("phases_completed", JList []);
               ("phases_remaining", JList []);
               ("last_updated", JStr now)]);
        ("document_status", JObj []);
        ("execution_log", JList []);
        ("generated_files", JList [])].

(** [if key not in manifest: manifest[key] = []] followed by
    [manifest[key].extend(items)]; [extend] on a non-list raises
    [AttributeError]. *)
Definition extend_key (key : string) (items : list string)
  (d : list (string * json)) : exn + list (string * json) :=
  let d1 := match lookup key d with
            | None => set_key key (JList []) d
            | Some _ => d
            end in
  match lookup key d1 with
  | Some (JList l) => inr (set_key key (JList (l ++ map JStr items)) d1)
  | _ => inl AttributeError
  end.

(** [save_to_manifest]: [file] is the manifest file's content ([None] when
    it does not exist), read back by [json.load] as it was written by
    [json.dump]; the result is the content written back, or the exception
    raised before the write (the file is then left as it was). *)
Definition save_to_manifest (ctx : WorkflowContext) (now : string)
  (file : option json) : exn + json :=
  let manifest := match file with
                  | Some m => m
                  | None => _create_base_manifest ctx now
                  end in
  match manifest with
  | JObj d =>
    match lookup "workflow_status" d with
    | Some (JObj ws) =>
      let ws' := set_key "last_updated" (JStr now)
                   (set_key "current_phase" (JStr (phase ctx)) ws) in
      let d1 := set_key "workflow_status" (JObj ws') d in
      match extend_key "execution_log" (execution_log ctx) d1 with
      | inl e => inl e
      | inr d2 =>
        match extend_key "generated_files" (generated_files ctx) d2 with
        | inl e => inl e
        | inr d3 => inr (JObj d3)
        end
      end
    | Some _ => inl TypeError
    | None => inl KeyError
    end
  | _ => inl TypeError
  end.

(** [save_to_manifest] with its file accesses.  [read] is the outcome of
    [manifest_path.exists()] followed by [open(manifest_path, 'r')] and
    [json.load]: [inr None] when the file does not exist, [inr (Some m)] for
    the object loaded, or the exception raised ([OSError] from [open],
    [ValueError] from [json.load] on a file that is not JSON).  [write m]
    is [open(manifest_path, 'w')] followed by [json.dump(m, f, indent=2)],
    which may raise (for instance [PermissionError], an [OSError]).  The
    result is the manifest written, or the first exception raised. *)
Definition save_to_manifest_file (ctx : WorkflowContext) (now : string)
  (read : exn + option json) (write : json -> exn + unit) : exn + json :=
  match read with
  | inl e => inl e
  | inr file =>
    match save_to_manifest ctx now file with
    | inl e => inl e
    | inr m =>
      match write m with
      | inl e => inl e
      | inr _ => inr m
      end
    end
  end.

(** The success path of [execute_workflow_document]:
    [context.execution_log.append(entry)] then [context.save_to_manifest()]. *)
Definition log_and_save (ctx : WorkflowContext) (entry : string) (now : string)
  (file : option json) : exn + json :=
  save_to_manifest
    {| feature_name := feature_name ctx; feature_slug := feature_slug ctx;
       feature_dir := feature_dir ctx; mode := mode ctx; phase := phase ctx;
       step_number := step_number ctx; generated_files := generated_files ctx;
       execution_log := execution_log ctx ++ [entry] |} now file.

(** Successive steps, each with its own context, log entry and time. *)
Fixpoint run_steps (steps : list (WorkflowContext * string * string))
  (file : option json) : exn + option json :=
  match steps with
  | [] => inr file
  | (ctx, entry, now) :: rest =>
    match log_and_save ctx entry now file with
    | inl e => inl e
    | inr m => run_steps rest (Some m)
    end
  end.

(** The entries recorded under [key]: absent counts as empty. *)
Definition entries (key : string) (file : option json) : list json :=
  match file with
  | Some (JObj d) =>
    match lookup key d with Some (JList l) => l | _ => [] end
  | _ => []
  end.

(** A manifest a save accepts: an object whose [workflow_status] is an
    object and whose log and file lists, when present, are lists. *)
Definition list_or_absent (key : string) (d : list (string * json)) : bool :=
  match lookup key d with
  | None | Some (JList _) => true
  | Some _ => false
  end.

Definition well_formed (file : option json) : bool :=
  match file with
  | None => true
  | Some (JObj d) =>
    match lookup "workflow_status" d with
    | Some (JObj _) =>
      list_or_absent "execution_log" d && list_or_absent "generated_files" d
    | _ => false
    end
  | Some _ => false
  end.

Definition old_list (key : string) (d : list (string * json)) : list json :=
  match lookup key d with Some (JList l) => l | _ => [] end.

End Manifest.

(** ** Concrete inputs used by the witnesses and counterexamples *)
Module Ex.

Definition step (g : string) : Gate.WorkflowStep :=
  {| Gate.number := "04"; Gate.doc_name := "04-gen-design-decisions-lite.md";
     Gate.phase := "design"; Gate.gate_name := g; Gate.dependencies := ["03"] |}.

Definition ctx (m : Gate.AutomationMode) : Gate.ExecutionContext :=
  {| Gate.feature_name := "Todo App"; Gate.mode := m;
     Gate.project_root := "/home/user/todo"; Gate.feature_dir := None;
     Gate.risk_score := 0.3 |}.

Definition estep (g : string) (impact : bool) : EGate.EnterpriseWorkflowStep :=
  {| EGate.number := "s04"; EGate.doc_name := "s04-enterprise-prd.md";
     EGate.phase := "requirements"; EGate.gate_name := g;
     EGate.dependencies := ["s03"]; EGate.compliance_impact := impact |}.

Definition ectx (m : Gate.AutomationMode) (fw : option EGate.ComplianceFramework)
  : EGate.EnterpriseExecutionContext :=
  {| EGate.feature_name := "Billing"; EGate.mode := m;
     EGate.project_root := "/srv/billing"; EGate.risk_score := 0.6;
     EGate.compliance_framework := fw; EGate.multi_team_coordination := false;
     EGate.architecture_impact := false |}.

(** A configuration with one gate table per mode. *)
Definition cfg1 (m : Gate.AutomationMode) (table : dict string) : Gate.Config :=
  [(Gate.mode_value m, table)].

End Ex.

(** ** Concrete adapter inputs *)

Definition ex_config (n : Z) : LLM.LLMConfig :=
  {| LLM.provider := "openai"; LLM.model := "gpt-4"; LLM.max_tokens := 4000;
     LLM.temperature := 7 # 10; LLM.timeout := 60; LLM.max_retries := n;
     LLM.cost_limit_usd := 10 |}.

Definition ex_request (criteria : option (list string)) : LLM.LLMRequest :=
  {| LLM.prompt := "Write a PRD"; LLM.system_prompt := None;
     LLM.context_data := None; LLM.expected_format := "markdown";
     LLM.validation_criteria := criteria |}.

Definition ex_response (c : string) : LLM.LLMResponse :=
  {| LLM.content := c; LLM.resp_provider := "openai"; LLM.resp_model := "gpt-4";
     LLM.tokens_used := 1200; LLM.cost_usd := 36 # 1000;
     LLM.execution_time := 0; LLM.validated := false;
     LLM.validation_errors := None |}.

(** A backend failing on the first two attempts, then answering. *)
Definition fails_twice (resp : LLM.LLMResponse) (a : nat) : exn + LLM.LLMResponse :=
  match a with
  | O | S O => inl (ProviderError "503 Service Unavailable")
  | _ => inr resp
  end.

Definition ex_mctx (step : string) (files : list string) : Manifest.WorkflowContext :=
  {| Manifest.feature_name := "Todo App"; Manifest.feature_slug := "todo-app";
     Manifest.feature_dir := "features/2026-10-14-todo-app"; Manifest.mode := "guided";
     Manifest.phase := "requirements"; Manifest.step_number := step;
     Manifest.generated_files := files; Manifest.execution_log := [] |}.

Definition ex_env (present : bool) : Runner.Env :=
  {| Runner.doc_exists := fun _ => present; Runner.run_executor := fun _ => true |}.

Definition ex_engine_config : CGE.EngineConfig :=
  {| CGE.workflow_specific_configs := [];
     CGE.common_instructions := Some ["Use markdown"];
     CGE.validation_criteria_config := Some [("default", ["not_empty"])] |}.

Definition ex_validating_config (prd_criteria : list string) : CGE.EngineConfig :=
  {| CGE.workflow_specific_configs := [];
     CGE.common_instructions := Some ["Use markdown"];
     CGE.validation_criteria_config :=
       Some [("default", ["not_empty"]); ("prd", prd_criteria)] |}.

Definition ex_tracker : LLM.Tracker := {| LLM.total_tokens := 0; LLM.total_cost_usd := 0 |}.

Definition ex_generation_request (doc : string) : CGE.ContentGenerationRequest :=
  {| CGE.workflow_document := doc;
     CGE.context := {| CGE.feature_name := "Todo App"; CGE.feature_slug := "todo-app";
                       CGE.feature_dir := "features/todo-app"; CGE.workflow_step := "02";
                       CGE.phase := "requirements"; CGE.project_data := [];
                       CGE.previous_outputs := None |};
     CGE.output_file := "prd.md"; CGE.content_type := "prd";
     CGE.template_sections := None; CGE.ai_directives := None |}.

(** ** Project names and API keys (workflow-runner.py, module level) *)
Module Projects.

(** [s.replace(a, b)] for one-character [a] and [b]. *)
Fixpoint replace_char (a b : ascii) (s : string) : string :=
  match s with
  | EmptyString => EmptyString
  | String c s' => String (if Ascii.eqb c a then b else c) (replace_char a b s')
  end.

(** [s.replace(a, "")] for a one-character [a]. *)
Fixpoint remove_char (a : ascii) (s : string) : string :=
  match s with
  | EmptyString => EmptyString
  | String c s' => if Ascii.eqb c a then remove_char a s' else String c (remove_char a s')
  end.

Fixpoint filter_string (p : ascii -> bool) (s : string) : string :=
  match s with
  | EmptyString => EmptyString
  | String c s' => if p c then String c (filter_string p s') else filter_string p s'
  end.

(** The class [a-z0-9-] kept by [re.sub(r'[^a-z0-9-]', '', ...)]. *)
Definition name_char (c : ascii) : bool :=
  let n := nat_of_ascii c in
  ((97 <=? n) && (n <=? 122) || (48 <=? n) && (n <=? 57) || (n =? 45))%nat.

(** [validate_project_name] *)
Definition validate_project_name (project_name : string) : exn + string :=
  if negb (truthy project_name) then inl ValueError
  else
    let normalized := replace_char "_" "-" (replace_char " " "-" (lower project_name)) in
    let normalized := filter_string name_char normalized in
    if negb (truthy normalized) then inl ValueError
    else inr normalized.

(** [ch.isalnum()] for an ASCII character. *)
Definition is_alnum_char (c : ascii) : bool :=
  let n := nat_of_ascii c in
  ((48 <=? n) && (n <=? 57) || (65 <=? n) && (n <=? 90) || (97 <=? n) && (n <=? 122))%nat.

(** [s.isalnum()]: non-empty and every character alphanumeric. *)
Definition isalnum (s : string) : bool :=
  truthy s && forallb is_alnum_char (list_ascii_of_string s).

(** [_validate_api_key] *)
Definition _validate_api_key (provider : string) (api_key : string) : bool :=
  if negb (truthy api_key) || negb (truthy (strip api_key)) then false
  else
    let api_key := strip api_key in
    let len := String.length api_key in
    if String.eqb provider "openai" then
      startswith api_key "sk-" && (20 <=? len)%nat
    else if String.eqb provider "anthropic" then
      startswith api_key "sk-ant-" && (20 <=? len)%nat
    else if String.eqb provider "google" then
      (20 <=? len)%nat && (len <=? 50)%nat &&
      isalnum (remove_char "_" (remove_char "-" api_key))
    else false.

End Projects.

(** ** Step lists built from the configuration ([_initialize_workflow_steps]
    of both orchestrators) *)
Module Steps.

(** [f"{i:02d}"] for a non-negative [i]. *)
Definition pad2 (i : nat) : string :=
  if (i <? 10)%nat then "0" ++ LLM.str_Z (Z.of_nat i) else LLM.str_Z (Z.of_nat i).

(** [_get_phase_for_step]: the first phase (in mapping order) whose step
    list contains [step_num], else ["unknown"]. *)
Fixpoint _get_phase_for_step (step_num : string) (phase_mapping : dict (list string))
  : string :=
  match phase_mapping with
  | [] => "unknown"
  | (phase, steps) :: rest =>
    if existsb (String.eqb step_num) steps then phase
    else _get_phase_for_step step_num rest
  end.

Definition gate_names : dict string :=
  [("01", "feature_directory_creation"); ("02", "prd_generation");
   ("03", "srs_generation"); ("04", "design_decisions");
   ("05", "design_analysis"); ("06", "task_creation");
   ("07", "task_implementation"); ("08", "completion_summary");
   ("09", "project_history")].

(** The loop [for i, doc_name in enumerate(sequence, 1)] from position [i]. *)
Fixpoint steps_from (i : nat) (sequence : list string)
  (phase_mapping : dict (list string)) (dependencies : dict (list string))
  : list Gate.WorkflowStep :=
  match sequence with
  | [] => []
  | doc_name :: rest =>
    let step_num := pad2 i in
    {| Gate.number := step_num; Gate.doc_name := doc_name;
       Gate.phase := _get_phase_for_step step_num phase_mapping;
       Gate.gate_name := get gate_names step_num ("step_" ++ step_num);
       Gate.dependencies := get dependencies step_num [] |}
      :: steps_from (S i) rest phase_mapping dependencies
  end.

(** [WorkflowOrchestrator._initialize_workflow_steps], given the
    [numbered_sequence], [phase_mapping] and [dependency_chain] entries of
    [config['workflow_execution']]. *)
Definition _initialize_workflow_steps (sequence : list string)
  (phase_mapping : dict (list string)) (dependencies : dict (list string))
  : list Gate.WorkflowStep :=
  steps_from 1 sequence phase_mapping dependencies.

Definition enterprise_gate_names : dict string :=
  [("s01", "mvp_to_scaling_transition"); ("s02", "enterprise_design_decisions");
   ("s03", "enterprise_srs_generation"); ("s04", "enterprise_prd_creation");
   ("s05", "enterprise_design_analysis"); ("s06", "enterprise_task_creation");
   ("s07", "enterprise_completion_summary"); ("s08", "enterprise_history_update")].

Definition compliance_critical : list string := ["s03"; "s04"; "s06"; "s07"].

Fixpoint enterprise_steps_from (i : nat) (sequence : list string)
  (phase_mapping : dict (list string)) (dependencies : dict (list string))
  : list EGate.EnterpriseWorkflowStep :=
  match sequence with
  | [] => []
  | doc_name :: rest =>
    let step_num := "s" ++ pad2 i in
    {| EGate.number := step_num; EGate.doc_name := doc_name;
       EGate.phase := _get_phase_for_step step_num phase_mapping;
       EGate.gate_name := get enterprise_gate_names step_num ("enterprise_step_" ++ step_num);
       EGate.dependencies := get dependencies step_num [];
       EGate.compliance_impact := existsb (String.eqb step_num) compliance_critical |}
      :: enterprise_steps_from (S i) rest phase_mapping dependencies
  end.

(** [EnterpriseWorkflowOrchestrator._initialize_workflow_steps], given the
    entries of [config['enterprise_workflow_execution']]. *)
Definition _initialize_enterprise_workflow_steps (sequence : list string)
  (phase_mapping : dict (list string)) (dependencies : dict (list string))
  : list EGate.EnterpriseWorkflowStep :=
  enterprise_steps_from 1 sequence phase_mapping dependencies.

(** Duplicate-free check on strings, used to decide [NoDup] on a finite
    range. *)
Fixpoint nodupb (l : list string) : bool :=
  match l with
  | [] => true
  | x :: r => negb (existsb (String.eqb x) r) && nodupb r
  end.

End Steps.

(** ** Enterprise risk score ([assess_enterprise_risk_score]) *)
Module Risk.
Import EGate.

(** [config] lists the top-level keys of the orchestrator configuration;
    [self.config['enterprise_risk_assessment']] raises [KeyError] when the
    key is absent; [min(risk_score, 1.0)] keeps [risk_score] unless [1.0]
    is smaller.  Floats are represented by rationals. *)
Definition assess_enterprise_risk_score (config : list string)
  (context : EnterpriseExecutionContext) : exn + Q :=
  if negb (existsb (String.eqb "enterprise_risk_assessment") config) then inl KeyError
  else
    let risk_score := 2 # 5 in
    let risk_score := if has_framework context then risk_score + (1 # 5) else risk_score in
    let risk_score := if multi_team_coordination context then risk_score + (1 # 10)
                      else risk_score in
    let risk_score := if architecture_impact context then risk_score + (1 # 5)
                      else risk_score in
    inr (if Qle_bool risk_score 1 then risk_score else 1).

End Risk.

(** ** Document execution with the content engine (workflow-executor.py,
    [WorkflowDocumentExecutor]) *)
Module Executor.

Definition content_type_mapping : dict string :=
  [("01-mvp-entrypoint.md", "mvp_entrypoint"); ("02-gen-prd.md", "prd");
   ("03-gen-srs.md", "srs"); ("04-gen-design-decisions-lite.md", "design_decisions");
   ("05-gen-design.md", "design_analysis"); ("06-gen-tasks-and-testing.md", "tasks");
   ("07-process-tasks.md", "task_processing");
   ("08-gen-completion-summary.md", "completion_summary");
   ("09-gen-project-history.md", "project_history");
   ("s01-mvp-to-scaling-transition.md", "enterprise");
   ("s02-gen-design-decisions-scaling.md", "design_decisions");
   ("s03-gen-srs-scaling.md", "srs"); ("s04-create-prd-scaling.md", "prd");
   ("s05-gen-design-scaling.md", "design_analysis");
   ("s06-tasks-and-testing-scaling.md", "tasks");
   ("s07-gen-enterprise-completion-summary.md", "completion_summary");
   ("s08-gen-enterprise-history.md", "project_history")].

(** [_determine_content_type] *)
Definition _determine_content_type (document_name : string) : string :=
  get content_type_mapping document_name "prd".

Definition output_file_mapping : dict string :=
  [("01-mvp-entrypoint.md", "project-initialization.md"); ("02-gen-prd.md", "prd.md");
   ("03-gen-srs.md", "srs.md"); ("04-gen-design-decisions-lite.md", "design-decisions.md");
   ("05-gen-design.md", "design-analysis.md"); ("06-gen-tasks-and-testing.md", "tasks.md");
   ("07-process-tasks.md", "implementation-guide.md");
   ("08-gen-completion-summary.md", "completion-summary.md");
   ("09-gen-project-history.md", "project-history.md");
   ("s01-mvp-to-scaling-transition.md", "transition-analysis.md");
   ("s02-gen-design-decisions-scaling.md", "enterprise-design-decisions.md");
   ("s03-gen-srs-scaling.md", "enterprise-srs.md");
   ("s04-create-prd-scaling.md", "enterprise-prd.md");
   ("s05-gen-design-scaling.md", "enterprise-design-analysis.md");
   ("s06-tasks-and-testing-scaling.md", "enterprise-tasks.md");
   ("s07-gen-enterprise-completion-summary.md", "enterprise-completion-summary.md");
   ("s08-gen-enterprise-history.md", "enterprise-project-history.md")].

(** [_get_primary_output_file] *)
Definition _get_primary_output_file (document_name : string) : option string :=
  lookup document_name output_file_mapping.

(** The entries of the parsed [instructions] dict that reach the engine. *)
Record Instructions := {
  template_sections : dict string;
  ai_directives : list string
}.

(** What the surroundings contribute: constructing the
    [ContentGenerationEngine] (with its import), [_load_previous_outputs],
    the engine's [generate_content], creating and writing a file at a
    path, and writing the [NamedTemporaryFile] of the fallback. *)
Record AgentEnv := {
  engine_init : exn + unit;
  previous_outputs : dict string;
  generate : CGE.ContentGenerationRequest -> exn + string;
  write_file : string -> exn + unit;
  make_temp : exn + unit
}.

(** [dir / name] on a directory path without a trailing separator. *)
Definition path_join (dir name : string) : string := dir ++ "/" ++ name.

(** [_create_ai_execution_file]: writes [output_file], then appends it to
    [context.generated_files]. *)
Definition _create_ai_execution_file (aenv : AgentEnv) (output_file : string)
  (files : list string) : exn + list string :=
  match write_file aenv output_file with
  | inl e => inl e
  | inr _ => inr (app files [output_file])
  end.

(** [_execute_with_ai_instructions_fallback]: the temporary prompt file is
    written outside the [try]; a failure to write the status file returns
    [False]. *)
Definition _execute_with_ai_instructions_fallback (aenv : AgentEnv)
  (ctx : Manifest.WorkflowContext) (files : list string) : (exn + bool) * list string :=
  match make_temp aenv with
  | inl e => (inl e, files)
  | inr _ =>
    let output_file := path_join (Manifest.feature_dir ctx)
                                 (Manifest.step_number ctx ++ "-output.md") in
    match _create_ai_execution_file aenv output_file files with
    | inl e => if is_Exception e then (inr false, files) else (inl e, files)
    | inr files' => (inr true, files')
    end
  end.

(** The [CGContext] built by [_execute_with_ai_agent]. *)
Definition agent_cg_context (aenv : AgentEnv) (ctx : Manifest.WorkflowContext)
  (project_data : dict string) : CGE.WorkflowContext :=
  {| CGE.feature_name := Manifest.feature_name ctx;
     CGE.feature_slug := Manifest.feature_slug ctx;
     CGE.feature_dir := Manifest.feature_dir ctx;
     CGE.workflow_step := Manifest.step_number ctx;
     CGE.phase := Manifest.phase ctx;
     CGE.project_data := project_data;
     CGE.previous_outputs := Some (previous_outputs aenv) |}.

(** The [ContentGenerationRequest] for the primary output file. *)
Definition agent_request (aenv : AgentEnv) (document_path : string)
  (instructions : Instructions) (ctx : Manifest.WorkflowContext)
  (project_data : dict string) (primary_output : string) : CGE.ContentGenerationRequest :=
  {| CGE.workflow_document := document_path;
     CGE.context := agent_cg_context aenv ctx project_data;
     CGE.output_file := primary_output;
     CGE.content_type := _determine_content_type (CGE.path_name document_path);
     CGE.template_sections := Some (template_sections instructions);
     CGE.ai_directives := Some (ai_directives instructions) |}.

(** The [try] body of [_execute_with_ai_agent]: the outcome, and
    [context.generated_files] as left when it returns or raises. *)
Definition agent_body (aenv : AgentEnv) (document_path : string)
  (instructions : Instructions) (ctx : Manifest.WorkflowContext)
  (project_data : dict string) : (exn + unit) * list string :=
  let files := Manifest.generated_files ctx in
  match engine_init aenv with
  | inl e => (inl e, files)
  | inr _ =>
    let document_name := CGE.path_name document_path in
    let generated :=
      match _get_primary_output_file document_name with
      | Some primary_output =>
        if truthy primary_output then
          let request := agent_request aenv document_path instructions ctx
                                       project_data primary_output in
          match generate aenv request with
          | inl e => inl e
          | inr _ =>
            let output_path := path_join (Manifest.feature_dir ctx) primary_output in
            match write_file aenv output_path with
            | inl e => inl e
            | inr _ => inr (app files [output_path])
            end
          end
        else inr files
      | None => inr files
      end in
    match generated with
    | inl e => (inl e, files)
    | inr files1 =>
      let status_file := path_join (Manifest.feature_dir ctx)
                                   (Manifest.step_number ctx ++ "-output.md") in
      match _create_ai_execution_file aenv status_file files1 with
      | inl e => (inl e, files1)
      | inr files2 => (inr tt, files2)
      end
    end
  end.

(** [_execute_with_ai_agent]: any [Exception] of the body (including
    [ImportError]) falls back to writing AI instructions. *)
Definition _execute_with_ai_agent (aenv : AgentEnv) (document_path : string)
  (instructions : Instructions) (ctx : Manifest.WorkflowContext)
  (project_data : dict string) : (exn + bool) * list string :=
  match agent_body aenv document_path instructions ctx project_data with
  | (inr _, files) => (inr true, files)
  | (inl e, files) =>
    if is_Exception e then _execute_with_ai_instructions_fallback aenv ctx files
    else (inl e, files)
  end.

End Executor.

(** ** Adapter selection and the engine's adapter cache
    ([ContentGenerationEngine._select_llm_for_content_type],
    [_create_llm_integration]) *)
Module Select.
Import LLM.

(** An entry of [llm_config_data["providers"]]; [None] for a missing key. *)
Record ProviderConfig := {
  pc_provider : option string;
  pc_model : option string;
  pc_max_tokens : option Z;
  pc_temperature : option Q;
  pc_timeout : option Z;
  pc_max_retries : option Z;
  pc_cost_limit_usd : option Q
}.

(** An entry of [llm_config_data["workflow_specific_configs"]] (the keys
    read here). *)
Record WorkflowConfig := {
  wc_provider : option string;
  wc_model : option string;
  wc_temperature : option Q;
  wc_max_tokens : option Z
}.

Record LLMConfigData := {
  providers : dict ProviderConfig;
  workflow_configs : dict WorkflowConfig
}.

(** The engine's attributes: the user's overrides, [default_provider] and
    the lazily created [default_llm] (its configuration and usage
    tracker). *)
Record Engine := {
  user_provider : option string;
  user_model : option string;
  default_provider : string;
  default_llm : option (LLMConfig * Tracker)
}.

Definition req {A} (o : option A) : exn + A :=
  match o with Some a => inr a | None => inl KeyError end.

(** [LLMProvider(value)] *)
Definition llm_provider (value : string) : exn + string :=
  if existsb (String.eqb value)
       ["openai"; "anthropic"; "azure_openai"; "local_ollama"; "groq"; "google"]
  then inr value else inl ValueError.

(** The [LLMConfig(...)] call, arguments evaluated in order. *)
Definition make_config (pc : ProviderConfig) : exn + LLMConfig :=
  CGE.sum_bind (req (pc_provider pc)) (fun p =>
  CGE.sum_bind (llm_provider p) (fun provider =>
  CGE.sum_bind (req (pc_model pc)) (fun model =>
  CGE.sum_bind (req (pc_max_tokens pc)) (fun max_tokens =>
  CGE.sum_bind (req (pc_temperature pc)) (fun temperature =>
  CGE.sum_bind (req (pc_timeout pc)) (fun timeout =>
  CGE.sum_bind (req (pc_max_retries pc)) (fun max_retries =>
  CGE.sum_bind (req (pc_cost_limit_usd pc)) (fun cost_limit_usd =>
  inr {| provider := provider; model := model; max_tokens := max_tokens;
         temperature := temperature; timeout := timeout;
         max_retries := max_retries; cost_limit_usd := cost_limit_usd |})))))))).

Definition zero_tracker : Tracker := {| total_tokens := 0; total_cost_usd := 0 |}.

(** [LLMAPIIntegration(config)]: [_initialize_client] may raise (missing
    API key, missing package); the usage tracker starts at zero. *)
Definition new_adapter (init_client : LLMConfig -> exn + unit) (config : LLMConfig)
  : exn + (LLMConfig * Tracker) :=
  match init_client config with
  | inl e => inl e
  | inr _ => inr (config, zero_tracker)
  end.

(** [_create_llm_integration] *)
Definition _create_llm_integration (data : LLMConfigData)
  (init_client : LLMConfig -> exn + unit) (provider_name : string)
  : exn + (LLMConfig * Tracker) :=
  CGE.sum_bind (req (lookup provider_name (providers data))) (fun pc =>
  CGE.sum_bind (make_config pc) (new_adapter init_client)).

(** [a or b] on optional strings. *)
Definition py_or (a : option string) (b : string) : string :=
  match a with Some s => if truthy s then s else b | None => b end.

(** [_select_llm_for_content_type]: the adapter, whether it is the
    engine's shared [default_llm], and the engine afterwards. *)
Definition _select_llm_for_content_type (data : LLMConfigData)
  (init_client : LLMConfig -> exn + unit) (eng : Engine) (content_type : string)
  : (exn + ((LLMConfig * Tracker) * bool)) * Engine :=
  let config_key := get CGE.content_type_mapping content_type "gen_prd" in
  match lookup config_key (workflow_configs data) with
  | Some config =>
    let provider_name :=
      py_or (user_provider eng)
            (match wc_provider config with Some p => p | None => default_provider eng end) in
    let model_name :=
      match user_model eng with
      | Some m => if truthy m then Some m else wc_model config
      | None => wc_model config
      end in
    match lookup provider_name (providers data) with
    | None => (inl KeyError, eng)
    | Some pc =>
      let pc_model' := match model_name with
                       | Some m => if truthy m then Some m else pc_model pc
                       | None => pc_model pc
                       end in
      match pc_temperature pc with
      | None => (inl KeyError, eng)
      | Some t0 =>
        let temperature := match wc_temperature config with Some t => t | None => t0 end in
        match pc_max_tokens pc with
        | None => (inl KeyError, eng)
        | Some m0 =>
          let max_tokens := match wc_max_tokens config with Some m => m | None => m0 end in
          let pc' := {| pc_provider := pc_provider pc; pc_model := pc_model';
                        pc_max_tokens := Some max_tokens;
                        pc_temperature := Some temperature;
                        pc_timeout := pc_timeout pc; pc_max_retries := pc_max_retries pc;
                        pc_cost_limit_usd := pc_cost_limit_usd pc |} in
          match CGE.sum_bind (make_config pc') (new_adapter init_client) with
          | inl e => (inl e, eng)
          | inr adapter => (inr (adapter, false), eng)
          end
        end
      end
    end
  | None =>
    match default_llm eng with
    | Some adapter => (inr (adapter, true), eng)
    | None =>
      match _create_llm_integration data init_client (default_provider eng) with
      | inl e => (inl (if is_Exception e then ValueError else e), eng)
      | inr adapter =>
        (inr (adapter, true),
         {| user_provider := user_provider eng; user_model := user_model eng;
            default_provider := default_provider eng; default_llm := Some adapter |})
      end
    end
  end.

(** [ContentGenerationEngine.generate_content] with the engine threaded:
    the usage recorded by the adapter persists only when it is the shared
    [default_llm].  [cfg] is the prompt-building view of the same
    [llm_config_data]. *)
Definition generate_content (data : LLMConfigData)
  (init_client : LLMConfig -> exn + unit) (json_dumps : dict string -> string)
  (cfg : CGE.EngineConfig) (fs : string -> CGE.FileState)
  (call : nat -> exn + LLMResponse) (now : string) (eng : Engine)
  (request : CGE.ContentGenerationRequest) : (exn + string) * Engine :=
  match _select_llm_for_content_type data init_client eng (CGE.content_type request) with
  | (inl e, eng1) => (inl e, eng1)
  | (inr ((config, tr), shared), eng1) =>
    match CGE._create_specialized_prompt json_dumps cfg fs request with
    | inl e => (inl e, eng1)
    | inr llm_request =>
      let '(res, run) := LLM.generate_content call config tr llm_request in
      let eng2 := if shared
                  then {| user_provider := user_provider eng1; user_model := user_model eng1;
                          default_provider := default_provider eng1;
                          default_llm := Some (config, tracker run) |}
                  else eng1 in
      (match res with
       | inl e => inl e
       | inr None => inl AttributeError
       | inr (Some response) =>
         inr (CGE._post_process_content now (content response) request)
       end, eng2)
    end
  end.

End Select.

(** ** Concrete surroundings for the executor *)
Module ExExec.

Definition agent_env_ok : Executor.AgentEnv :=
  {| Executor.engine_init := inr tt; Executor.previous_outputs := [];
     Executor.generate := fun _ => inr "# PRD";
     Executor.write_file := fun _ => inr tt; Executor.make_temp := inr tt |}.

Definition agent_env_read_only : Executor.AgentEnv :=
  {| Executor.engine_init := inr tt; Executor.previous_outputs := [];
     Executor.generate := fun _ => inr "# PRD";
     Executor.write_file := fun _ => inl OSError; Executor.make_temp := inr tt |}.

Definition agent_env_no_engine : Executor.AgentEnv :=
  {| Executor.engine_init := inl OSError; Executor.previous_outputs := [];
     Executor.generate := fun _ => inr "# PRD";
     Executor.write_file := fun _ => inr tt; Executor.make_temp := inr tt |}.

Definition no_instructions : Executor.Instructions :=
  {| Executor.template_sections := []; Executor.ai_directives := [] |}.


Definition select_data_workflow : Select.LLMConfigData :=
  {| Select.providers := [];
     Select.workflow_configs :=
       [("gen_prd", {| Select.wc_provider := None; Select.wc_model := None;
                       Select.wc_temperature := None; Select.wc_max_tokens := None |})] |}.

Definition select_data_default : Select.LLMConfigData :=
  {| Select.providers := []; Select.workflow_configs := [] |}.

Definition engine_spent (spent : Q) : Select.Engine :=
  {| Select.user_provider := None; Select.user_model := None;
     Select.default_provider := "openai";
     Select.default_llm :=
       Some (ex_config 3, {| LLM.total_tokens := 0; LLM.total_cost_usd := spent |}) |}.

End ExExec.

(** ** Usage charged by provider calls *)
Module Usage.
Import LLM.

(** The tracker after [record_usage] of the response of the [attempt]-th
    provider call, if that call returned one; a call that raised charges
    nothing. *)
Definition charge (call : nat -> exn + LLMResponse) (t : Tracker) (attempt : nat)
  : Tracker :=
  match call attempt with
  | inl _ => t
  | inr response =>
    {| total_tokens := total_tokens t + tokens_used response;
       total_cost_usd := total_cost_usd t + cost_usd response |}
  end.

End Usage.

(** * Theorems *)

Ltac eqb_cases :=
  repeat match goal with
         | |- context [if String.eqb ?a ?b then _ else _] =>
           destruct (String.eqb a b) eqn:?
         end.

Lemma known_behavior_false (b : string) :
  Gate.known_behavior b = false ->
  String.eqb b "required" = false /\ String.eqb b "optional" = false /\
  String.eqb b "skip" = false /\ String.eqb b "learn_from_history" = false /\
  String.eqb b "required_for_new_tech" = false /\
  String.eqb b "required_for_destructive" = false.
Proof.
  unfold Gate.known_behavior; simpl.
  intro H; repeat (apply orb_false_elim in H as [? H]); tauto.
Qed.

Lemma eknown_behavior_false (b : string) :
  EGate.known_behavior b = false ->
  String.eqb b "required" = false /\ String.eqb b "optional" = false /\
  String.eqb b "skip" = false /\ String.eqb b "learn_from_history" = false /\
  String.eqb b "required_for_new_architecture" = false /\
  String.eqb b "required_for_compliance_changes" = false /\
  String.eqb b "required_for_production_changes" = false /\
  String.eqb b "required_with_approval_board" = false.
Proof.
  unfold EGate.known_behavior; simpl.
  intro H; repeat (apply orb_false_elim in H as [? H]); tauto.
Qed.

(** C1: in the enterprise resolver, a step with [compliance_impact = true]
    under a context carrying a compliance framework never resolves to
    [SKIP], whatever the mode and its gate table say. *)
Theorem enterprise_compliance_step_never_skip
  (cfg : Gate.Config) (step : EGate.EnterpriseWorkflowStep)
  (context : EGate.EnterpriseExecutionContext) :
  EGate.compliance_impact step = true ->
  EGate.compliance_framework context <> None ->
  EGate.is_enterprise_gate_required cfg step context <> Some EGate.SKIP.
Proof.
  intros Himp Hfw.
  unfold EGate.is_enterprise_gate_required, EGate.has_framework.
  destruct (Gate.mode_gates cfg (EGate.mode context)) as [t|]; [|discriminate].
  destruct (EGate.compliance_framework context) as [fw|]; [|congruence].
  rewrite Himp; simpl.
  unfold EGate._evaluate_enterprise_learning_gate, EGate._evaluate_architecture_gate,
    EGate._evaluate_compliance_gate, EGate._evaluate_production_gate.
  destruct (String.eqb (get t (EGate.gate_name step) "required") "skip") eqn:Hs.
  - simpl. discriminate.
  - rewrite Hs.
    eqb_cases;
      repeat match goal with
             | |- context [if ?c then _ else _] => destruct c
             end; discriminate.
Qed.

Lemma enterprise_compliance_step_never_skip_witness :
  EGate.compliance_impact (Ex.estep "enterprise_prd_creation" true) = true /\
  EGate.compliance_framework (Ex.ectx Gate.AUTONOMOUS (Some EGate.GDPR)) <> None /\
  EGate.is_enterprise_gate_required
    (Ex.cfg1 Gate.AUTONOMOUS [("enterprise_prd_creation", "skip")])
    (Ex.estep "enterprise_prd_creation" true)
    (Ex.ectx Gate.AUTONOMOUS (Some EGate.GDPR)) <> Some EGate.SKIP.
Proof.
  split; [reflexivity|]. split; [discriminate|].
  apply enterprise_compliance_step_never_skip; [reflexivity|discriminate].
Defined.

(** C2 (counterexample): a conditional behavior does not always resolve to
    [REQUIRED]: in the MVP resolver [required_for_new_tech] gives
    [OPTIONAL], and so does [required_for_destructive] on any gate other
    than [task_implementation]; in the enterprise resolver
    [required_for_production_changes] gives [OPTIONAL] off the
    [enterprise_task_creation] gate. *)
Lemma conditional_gate_not_always_required :
  Gate.is_gate_required
    (Ex.cfg1 Gate.GUIDED [("tech_stack_selection", "required_for_new_tech")])
    (Ex.step "tech_stack_selection") (Ex.ctx Gate.GUIDED) = Some Gate.OPTIONAL /\
  Gate.is_gate_required
    (Ex.cfg1 Gate.GUIDED [("design_analysis", "required_for_destructive")])
    (Ex.step "design_analysis") (Ex.ctx Gate.GUIDED) = Some Gate.OPTIONAL /\
  EGate.is_enterprise_gate_required
    (Ex.cfg1 Gate.GUIDED [("enterprise_prd_creation", "required_for_production_changes")])
    (Ex.estep "enterprise_prd_creation" true) (Ex.ectx Gate.GUIDED None)
    = Some EGate.OPTIONAL.
Proof. split; [reflexivity|]. split; reflexivity. Qed.

(** C2 (amended): how each conditional behavior resolves.  MVP resolver:
    [required_for_new_tech] gives [OPTIONAL]; [required_for_destructive]
    gives [REQUIRED] on the [task_implementation] gate and [OPTIONAL]
    elsewhere.  Enterprise resolver: [required_for_production_changes]
    gives [REQUIRED] exactly on the [enterprise_task_creation] gate,
    [required_for_new_architecture] gives [REQUIRED] exactly when the
    context has architecture impact, [required_for_compliance_changes]
    gives [REQUIRED] exactly when the context has a compliance framework
    and the step has compliance impact, [required_with_approval_board]
    gives [APPROVAL_BOARD_REQUIRED]; [OPTIONAL] otherwise. *)
Theorem conditional_gate_resolution
  (cfg : Gate.Config) (t : dict string) (b : string) :
  (forall (step : Gate.WorkflowStep) (context : Gate.ExecutionContext),
     Gate.mode_gates cfg (Gate.mode context) = Some t ->
     lookup (Gate.gate_name step) t = Some b ->
     (b = "required_for_new_tech" ->
        Gate.is_gate_required cfg step context = Some Gate.OPTIONAL) /\
     (b = "required_for_destructive" ->
        Gate.is_gate_required cfg step context =
          Some (if String.eqb (Gate.gate_name step) "task_implementation"
                then Gate.REQUIRED else Gate.OPTIONAL))) /\
  (forall (step : EGate.EnterpriseWorkflowStep)
          (context : EGate.EnterpriseExecutionContext),
     Gate.mode_gates cfg (EGate.mode context) = Some t ->
     lookup (EGate.gate_name step) t = Some b ->
     (b = "required_for_production_changes" ->
        EGate.is_enterprise_gate_required cfg step context =
          Some (if String.eqb (EGate.gate_name step) "enterprise_task_creation"
                then EGate.REQUIRED else EGate.OPTIONAL)) /\
     (b = "required_for_new_architecture" ->
        EGate.is_enterprise_gate_required cfg step context =
          Some (if EGate.architecture_impact context
                then EGate.REQUIRED else EGate.OPTIONAL)) /\
     (b = "required_for_compliance_changes" ->
        EGate.is_enterprise_gate_required cfg step context =
          Some (if EGate.has_framework context && EGate.compliance_impact step
                then EGate.REQUIRED else EGate.OPTIONAL)) /\
     (b = "required_with_approval_board" ->
        EGate.is_enterprise_gate_required cfg step context =
          Some EGate.APPROVAL_BOARD_REQUIRED)).
Proof.
  split.
  - intros step context Hm Hl.
    unfold Gate.is_gate_required, get. rewrite Hm, Hl.
    split; intros ->; reflexivity.
  - intros step context Hm Hl.
    unfold EGate.is_enterprise_gate_required, get. rewrite Hm, Hl.
    unfold EGate._evaluate_production_gate, EGate._evaluate_architecture_gate,
      EGate._evaluate_compliance_gate.
    repeat split; intros ->;
      destruct (EGate.has_framework context && EGate.compliance_impact step);
      reflexivity.
Qed.

Lemma conditional_gate_resolution_witness :
  Gate.mode_gates (Ex.cfg1 Gate.GUIDED [("task_implementation", "required_for_destructive")])
    (Gate.mode (Ex.ctx Gate.GUIDED))
    = Some [("task_implementation", "required_for_destructive")] /\
  lookup (Gate.gate_name (Ex.step "task_implementation"))
    [("task_implementation", "required_for_destructive")] = Some "required_for_destructive" /\
  Gate.is_gate_required
    (Ex.cfg1 Gate.GUIDED [("task_implementation", "required_for_destructive")])
    (Ex.step "task_implementation") (Ex.ctx Gate.GUIDED) = Some Gate.REQUIRED.
Proof.
  split; [reflexivity|]. split; [reflexivity|].
  destruct (conditional_gate_resolution
              (Ex.cfg1 Gate.GUIDED [("task_implementation", "required_for_destructive")])
              [("task_implementation", "required_for_destructive")]
              "required_for_destructive") as [Hmvp _].
  destruct (Hmvp (Ex.step "task_implementation") (Ex.ctx Gate.GUIDED)
                 eq_refl eq_refl) as [_ Hd].
  exact (Hd eq_refl).
Defined.

(** C7: fail-safe defaults.  In both resolvers, when the mode's gate table
    has no entry for the step's gate, or maps it to a behavior string the
    resolver does not recognise, or to [learn_from_history], the decision
    is [REQUIRED]. *)
Theorem unknown_or_learning_behavior_required (cfg : Gate.Config) (t : dict string) :
  (forall (step : Gate.WorkflowStep) (context : Gate.ExecutionContext),
     Gate.mode_gates cfg (Gate.mode context) = Some t ->
     (lookup (Gate.gate_name step) t = None \/
      exists b, lookup (Gate.gate_name step) t = Some b /\
                (Gate.known_behavior b = false \/ b = "learn_from_history")) ->
     Gate.is_gate_required cfg step context = Some Gate.REQUIRED) /\
  (forall (step : EGate.EnterpriseWorkflowStep)
          (context : EGate.EnterpriseExecutionContext),
     Gate.mode_gates cfg (EGate.mode context) = Some t ->
     (lookup (EGate.gate_name step) t = None \/
      exists b, lookup (EGate.gate_name step) t = Some b /\
                (EGate.known_behavior b = false \/ b = "learn_from_history")) ->
     EGate.is_enterprise_gate_required cfg step context = Some EGate.REQUIRED).
Proof.
  split.
  - intros step context Hm Hb.
    unfold Gate.is_gate_required, get. rewrite Hm.
    destruct Hb as [Hn | [b [Hl [Hk | ->]]]].
    + rewrite Hn. reflexivity.
    + rewrite Hl. apply known_behavior_false in Hk.
      destruct Hk as (H1 & H2 & H3 & H4 & H5 & H6).
      rewrite H1, H2, H3, H4, H5, H6. reflexivity.
    + rewrite Hl. reflexivity.
  - intros step context Hm Hb.
    unfold EGate.is_enterprise_gate_required, get. rewrite Hm.
    destruct Hb as [Hn | [b [Hl [Hk | ->]]]].
    + rewrite Hn. destruct (EGate.has_framework context && EGate.compliance_impact step);
        reflexivity.
    + rewrite Hl. apply eknown_behavior_false in Hk.
      destruct Hk as (H1 & H2 & H3 & H4 & H5 & H6 & H7 & H8).
      destruct (EGate.has_framework context && EGate.compliance_impact step);
        rewrite ?H3, ?H1, ?H2, ?H4, ?H5, ?H6, ?H7, ?H8; reflexivity.
    + rewrite Hl. destruct (EGate.has_framework context && EGate.compliance_impact step);
        reflexivity.
Qed.

Lemma unknown_or_learning_behavior_required_witness :
  Gate.is_gate_required
    (Ex.cfg1 Gate.LEARNING [("prd_review", "ask_the_oracle")])
    (Ex.step "prd_review") (Ex.ctx Gate.LEARNING) = Some Gate.REQUIRED.
Proof.
  destruct (unknown_or_learning_behavior_required
              (Ex.cfg1 Gate.LEARNING [("prd_review", "ask_the_oracle")])
              [("prd_review", "ask_the_oracle")]) as [Hmvp _].
  apply Hmvp; [reflexivity|].
  right. exists "ask_the_oracle". split; [reflexivity|]. left. reflexivity.
Defined.

(** C3: when the tracker's accumulated cost already meets or exceeds the
    configured limit (equality included), [generate_content] raises the
    cost-limit error before any provider call: no call is made, nothing
    is slept, and the tracker is unchanged. *)
Theorem cost_limit_checked_before_call
  (call : nat -> exn + LLM.LLMResponse) (config : LLM.LLMConfig)
  (usage : LLM.Tracker) (request : LLM.LLMRequest) :
  (LLM.cost_limit_usd config <= LLM.total_cost_usd usage)%Q ->
  LLM.generate_content call config usage request =
    (inl (RuntimeError "Cost limit exceeded"),
     {| LLM.tracker := usage; LLM.calls := 0; LLM.sleeps := [] |}).
Proof.
  intro H. unfold LLM.generate_content.
  apply Qle_bool_iff in H. rewrite H. reflexivity.
Qed.

Lemma cost_limit_checked_before_call_witness :
  (LLM.cost_limit_usd (ex_config 3) <=
   LLM.total_cost_usd {| LLM.total_tokens := 250000; LLM.total_cost_usd := 10 |})%Q /\
  LLM.generate_content (fails_twice (ex_response "# PRD")) (ex_config 3)
    {| LLM.total_tokens := 250000; LLM.total_cost_usd := 10 |} (ex_request None) =
    (inl (RuntimeError "Cost limit exceeded"),
     {| LLM.tracker := {| LLM.total_tokens := 250000; LLM.total_cost_usd := 10 |};
        LLM.calls := 0; LLM.sleeps := [] |}).
Proof.
  split; [apply Qle_refl|].
  apply cost_limit_checked_before_call. apply Qle_refl.
Defined.

Section Retries.

Variable call : nat -> exn + LLM.LLMResponse.
Variable request : LLM.LLMRequest.

Lemma attempts_calls_bound (n : Z) (atts : list nat) (r : LLM.Run) :
  (LLM.calls (snd (LLM.attempts call request n atts r)) <= LLM.calls r + length atts)%nat.
Proof.
  revert r. induction atts as [|a rest IH]; intro r; simpl; [lia|].
  rewrite Nat.add_succ_r.
  assert (Hh : forall e r', LLM.calls r' = S (LLM.calls r) ->
    (LLM.calls (snd (if is_Exception e then
                       if (Z.of_nat a =? n - 1)%Z then (inl e, r')
                       else LLM.attempts call request n rest
                              (LLM.record_sleep r' (2 ^ Z.of_nat a))
                     else (inl e, r')))
     <= S (LLM.calls r + length rest))%nat).
  { intros e r' Hr. destruct (is_Exception e); [|simpl; lia].
    destruct (Z.of_nat a =? n - 1)%Z; simpl; [lia|].
    specialize (IH (LLM.record_sleep r' (2 ^ Z.of_nat a))).
    simpl in IH. lia. }
  destruct (call a) as [e|resp].
  - apply Hh. reflexivity.
  - destruct (LLM.validation_criteria request) as [[|c cs]|]; simpl; try lia.
    destruct (LLM._validate_response resp (c :: cs)); simpl; [apply Hh; reflexivity|lia].
Qed.

Lemma attempts_cons_fail (n : Z) (a : nat) (rest : list nat) (r : LLM.Run) (e : exn) :
  call a = inl e -> is_Exception e = true ->
  LLM.attempts call request n (a :: rest) r =
    if (Z.of_nat a =? n - 1)%Z then (inl e, LLM.record_call r)
    else LLM.attempts call request n rest
           (LLM.record_sleep (LLM.record_call r) (2 ^ Z.of_nat a)).
Proof. intros H He. simpl. rewrite H, He. reflexivity. Qed.

Lemma attempts_all_fail (fails : nat -> exn) (n : Z) :
  (forall a, call a = inl (fails a)) -> (forall a, is_Exception (fails a) = true) ->
  forall k start r, Z.of_nat (start + k)%nat = (n - 1)%Z ->
  LLM.attempts call request n (seq start (S k)) r =
    (inl (fails (start + k)%nat),
     {| LLM.tracker := LLM.tracker r; LLM.calls := (LLM.calls r + S k)%nat;
        LLM.sleeps := LLM.sleeps r ++ map (fun i => 2 ^ Z.of_nat i)%Z (seq start k) |}).
Proof.
  intros Hf He k. induction k as [|k IH]; intros start r Hn.
  - change (seq start 1) with [start].
    rewrite (attempts_cons_fail n start [] r (fails start) (Hf start) (He start)).
    rewrite Nat.add_0_r in Hn |- *.
    rewrite Hn, Z.eqb_refl. destruct r; simpl.
    rewrite Nat.add_1_r, app_nil_r. reflexivity.
  - change (seq start (S (S k))) with (start :: seq (S start) (S k)).
    rewrite (attempts_cons_fail n start _ r (fails start) (Hf start) (He start)).
    assert (Hne : (Z.of_nat start =? n - 1)%Z = false) by (apply Z.eqb_neq; lia).
    rewrite Hne.
    rewrite (IH (S start)) by (rewrite <- Hn; f_equal; lia).
    destruct r; simpl.
    replace (S start + k)%nat with (start + S k)%nat by lia.
    rewrite <- app_assoc. simpl.
    repeat f_equal; lia.
Qed.

End Retries.

(** C4: the retry loop of [generate_content] (below the cost limit).
    It never calls the provider more than [max_retries] times; with
    [max_retries = 3] and a provider failing on the first two attempts and
    answering on the third, it returns that answer after exactly three
    calls, having slept 1 then 2 seconds; when every attempt fails (with
    [max_retries >= 1]) the exception of the last attempt is raised after
    [max_retries] calls, the delays before the retries being 1, 2, 4, ...
    seconds.  Failures are [Exception]s: a [KeyboardInterrupt] is not
    retried but propagates at once, after that one call and no sleep. *)
Theorem retry_with_exponential_backoff
  (call : nat -> exn + LLM.LLMResponse) (config : LLM.LLMConfig)
  (usage : LLM.Tracker) (request : LLM.LLMRequest) :
  (LLM.calls (snd (LLM.generate_content call config usage request))
     <= Z.to_nat (LLM.max_retries config))%nat /\
  (negb (Qle_bool (LLM.cost_limit_usd config) (LLM.total_cost_usd usage)) = true ->
   (forall resp e0 e1,
      LLM.max_retries config = 3%Z ->
      call 0%nat = inl e0 -> call 1%nat = inl e1 -> call 2%nat = inr resp ->
      is_Exception e0 = true -> is_Exception e1 = true ->
      (forall cs, LLM.validation_criteria request = Some cs ->
                  exists errs, LLM.collect_errors (LLM.content resp) cs = inr errs) ->
      exists resp',
        fst (LLM.generate_content call config usage request) = inr (Some resp') /\
        LLM.content resp' = LLM.content resp /\
        LLM.calls (snd (LLM.generate_content call config usage request)) = 3%nat /\
        LLM.sleeps (snd (LLM.generate_content call config usage request)) = [1; 2]%Z) /\
   (forall fails : nat -> exn,
      (1 <= LLM.max_retries config)%Z ->
      (forall a, call a = inl (fails a)) ->
      (forall a, is_Exception (fails a) = true) ->
      LLM.generate_content call config usage request =
        (inl (fails (Z.to_nat (LLM.max_retries config) - 1)%nat),
         {| LLM.tracker := usage;
            LLM.calls := Z.to_nat (LLM.max_retries config);
            LLM.sleeps := map (fun i => 2 ^ Z.of_nat i)%Z
                            (seq 0 (Z.to_nat (LLM.max_retries config) - 1)%nat) |})) /\
   ((1 <= LLM.max_retries config)%Z ->
    call 0%nat = inl KeyboardInterrupt ->
    LLM.generate_content call config usage request =
      (inl KeyboardInterrupt,
       {| LLM.tracker := usage; LLM.calls := 1%nat; LLM.sleeps := [] |}))).
Proof.
  split.
  - unfold LLM.generate_content.
    destruct (Qle_bool (LLM.cost_limit_usd config) (LLM.total_cost_usd usage));
      simpl; [lia|].
    pose proof (attempts_calls_bound call request (LLM.max_retries config)
                  (seq 0 (Z.to_nat (LLM.max_retries config)))
                  {| LLM.tracker := usage; LLM.calls := 0; LLM.sleeps := [] |}) as H.
    rewrite length_seq in H. simpl in H. exact H.
  - intro Hc. apply negb_true_iff in Hc.
    split.
    + intros resp e0 e1 Hn H0 H1 H2 He0 He1 Hv.
      unfold LLM.generate_content. rewrite Hc, Hn. simpl.
      rewrite H0, H1, H2, He0. simpl. rewrite He1. simpl.
      destruct (LLM.validation_criteria request) as [[|c cs]|] eqn:Hvc.
      * eexists. repeat split; reflexivity.
      * destruct (Hv (c :: cs) eq_refl) as [errs He].
        unfold LLM._validate_response. rewrite He. simpl.
        eexists. repeat split; reflexivity.
      * eexists. repeat split; reflexivity.
    + split.
      * intros fails Hn Hf Hfe.
        unfold LLM.generate_content. rewrite Hc.
        destruct (Z.to_nat (LLM.max_retries config)) as [|k] eqn:Hk; [lia|].
        rewrite (attempts_all_fail call request fails (LLM.max_retries config) Hf Hfe k 0)
          by (simpl; lia).
        simpl. rewrite Nat.sub_0_r. reflexivity.
      * intros Hn H0. unfold LLM.generate_content. rewrite Hc.
        destruct (Z.to_nat (LLM.max_retries config)) as [|k] eqn:Hk; [lia|].
        change (seq 0 (S k)) with (0%nat :: seq 1 k). cbn [LLM.attempts].
        rewrite H0. reflexivity.
Qed.

Lemma retry_with_exponential_backoff_witness :
  fst (LLM.generate_content (fails_twice (ex_response "# PRD")) (ex_config 3)
         {| LLM.total_tokens := 0; LLM.total_cost_usd := 0 |}
         (ex_request (Some ["not_empty"; "min_length:3"]))) <> inl ValueError /\
  exists resp',
    fst (LLM.generate_content (fails_twice (ex_response "# PRD")) (ex_config 3)
           {| LLM.total_tokens := 0; LLM.total_cost_usd := 0 |}
           (ex_request (Some ["not_empty"; "min_length:3"]))) = inr (Some resp') /\
    LLM.content resp' = "# PRD" /\
    LLM.calls (snd (LLM.generate_content (fails_twice (ex_response "# PRD")) (ex_config 3)
           {| LLM.total_tokens := 0; LLM.total_cost_usd := 0 |}
           (ex_request (Some ["not_empty"; "min_length:3"])))) = 3%nat /\
    LLM.sleeps (snd (LLM.generate_content (fails_twice (ex_response "# PRD")) (ex_config 3)
           {| LLM.total_tokens := 0; LLM.total_cost_usd := 0 |}
           (ex_request (Some ["not_empty"; "min_length:3"])))) = [1; 2]%Z.
Proof.
  split; [vm_compute; discriminate|].
  destruct (retry_with_exponential_backoff (fails_twice (ex_response "# PRD")) (ex_config 3)
              {| LLM.total_tokens := 0; LLM.total_cost_usd := 0 |}
              (ex_request (Some ["not_empty"; "min_length:3"]))) as [_ H].
  destruct (H eq_refl) as [Hs _].
  apply (Hs (ex_response "# PRD") (ProviderError "503 Service Unavailable")
            (ProviderError "503 Service Unavailable")); try reflexivity.
  intros cs Hcs. injection Hcs as <-. eexists. vm_compute. reflexivity.
Defined.

(** ** Manifest store *)
Module ManifestFacts.
Import Manifest.

Lemma lookup_set_key_eq (k : string) (v : json) (d : list (string * json)) :
  lookup k (set_key k v d) = Some v.
Proof.
  induction d as [|[k' v'] d IH]; simpl.
  - rewrite String.eqb_refl. reflexivity.
  - destruct (String.eqb k k') eqn:E; simpl.
    + rewrite String.eqb_refl. reflexivity.
    + rewrite E. exact IH.
Qed.

Lemma lookup_set_key_neq (k k2 : string) (v : json) (d : list (string * json)) :
  k2 <> k -> lookup k2 (set_key k v d) = lookup k2 d.
Proof.
  intro Hne. apply String.eqb_neq in Hne.
  induction d as [|[k' v'] d IH]; simpl.
  - rewrite Hne. reflexivity.
  - destruct (String.eqb k k') eqn:E; simpl.
    + apply String.eqb_eq in E. subst k'. rewrite Hne. reflexivity.
    + rewrite IH. reflexivity.
Qed.

(** The entries a dict records under [key], absent counting as empty. *)

Lemma extend_key_spec (key : string) (items : list string) (d : list (string * json)) :
  list_or_absent key d = true ->
  exists d', extend_key key items d = inr d' /\
    lookup key d' = Some (JList (app (old_list key d) (map JStr items))) /\
    (forall k', k' <> key -> lookup k' d' = lookup k' d).
Proof.
  unfold list_or_absent, extend_key, old_list.
  destruct (lookup key d) as [j|] eqn:Hl.
  - destruct j; try discriminate. intros _. rewrite Hl.
    eexists. split; [reflexivity|]. split.
    + apply lookup_set_key_eq.
    + intros k' Hk. apply lookup_set_key_neq. exact Hk.
  - intros _. rewrite lookup_set_key_eq.
    eexists. split; [reflexivity|]. split.
    + apply lookup_set_key_eq.
    + intros k' Hk. rewrite !lookup_set_key_neq by exact Hk. reflexivity.
Qed.

Lemma save_to_manifest_spec (ctx : WorkflowContext) (now : string) (file : option json) :
  well_formed file = true ->
  exists m, save_to_manifest ctx now file = inr m /\
    well_formed (Some m) = true /\
    entries "execution_log" (Some m) =
      app (entries "execution_log" file) (map JStr (execution_log ctx)) /\
    entries "generated_files" (Some m) =
      app (entries "generated_files" file) (map JStr (generated_files ctx)).
Proof.
  intro Hwf. destruct file as [m|].
  2:{ eexists. split; [reflexivity|]. repeat split. }
  destruct m as [| | | | |d]; try discriminate.
  simpl in Hwf. unfold save_to_manifest.
  destruct (lookup "workflow_status" d) as [[| | | | |ws]|] eqn:Hws; try discriminate.
  apply andb_prop in Hwf as [Hlog Hfiles].
  set (d1 := set_key "workflow_status" _ d).
  assert (Hlog1 : list_or_absent "execution_log" d1 = true).
  { unfold list_or_absent, d1. rewrite lookup_set_key_neq by discriminate. exact Hlog. }
  destruct (extend_key_spec "execution_log" (execution_log ctx) d1 Hlog1)
    as (d2 & He2 & Hl2 & Ho2).
  rewrite He2.
  assert (Hfiles2 : list_or_absent "generated_files" d2 = true).
  { unfold list_or_absent. rewrite Ho2 by discriminate. unfold d1.
    rewrite lookup_set_key_neq by discriminate. exact Hfiles. }
  destruct (extend_key_spec "generated_files" (generated_files ctx) d2 Hfiles2)
    as (d3 & He3 & Hl3 & Ho3).
  rewrite He3.
  exists (JObj d3). split; [reflexivity|].
  assert (Hlog3 : lookup "execution_log" d3 =
                  Some (JList (app (old_list "execution_log" d1) (map JStr (execution_log ctx))))).
  { rewrite Ho3 by discriminate. exact Hl2. }
  split; [|split].
  - simpl. rewrite Ho3, Ho2 by discriminate. unfold d1. rewrite lookup_set_key_eq.
    unfold list_or_absent. rewrite Hlog3, Hl3. reflexivity.
  - simpl. rewrite Hlog3. unfold old_list, d1.
    rewrite lookup_set_key_neq by discriminate. reflexivity.
  - simpl. rewrite Hl3. unfold old_list.
    rewrite Ho2 by discriminate. unfold d1.
    rewrite lookup_set_key_neq by discriminate. reflexivity.
Qed.

End ManifestFacts.

(** C5: over any sequence of steps, each executed with a fresh context
    ([execution_log = []], as the runner builds it) that appends its one
    log entry and then saves the manifest (read back, merged, written),
    every save succeeds and the manifest's execution log and generated
    file list are the previous ones followed, in order, by exactly the new
    entries: nothing is lost, reordered or duplicated.  The starting file
    is absent or a manifest a save accepts. *)
Theorem manifest_cycles_append_only
  (steps : list (Manifest.WorkflowContext * string * string))
  (file : option Manifest.json) :
  Manifest.well_formed file = true ->
  (forall ctx entry now, In (ctx, entry, now) steps ->
     Manifest.execution_log ctx = []) ->
  exists res,
    Manifest.run_steps steps file = inr res /\
    Manifest.well_formed res = true /\
    Manifest.entries "execution_log" res =
      app (Manifest.entries "execution_log" file)
          (map (fun '(_, entry, _) => Manifest.JStr entry) steps) /\
    Manifest.entries "generated_files" res =
      app (Manifest.entries "generated_files" file)
          (flat_map (fun '(ctx, _, _) => map Manifest.JStr (Manifest.generated_files ctx)) steps).
Proof.
  revert file.
  induction steps as [|[[ctx entry] now] rest IH]; intros file Hwf Hfresh.
  - exists file. simpl. rewrite !app_nil_r. repeat split; assumption.
  - simpl. unfold Manifest.log_and_save.
    destruct (ManifestFacts.save_to_manifest_spec
                {| Manifest.feature_name := Manifest.feature_name ctx;
                   Manifest.feature_slug := Manifest.feature_slug ctx;
                   Manifest.feature_dir := Manifest.feature_dir ctx;
                   Manifest.mode := Manifest.mode ctx;
                   Manifest.phase := Manifest.phase ctx;
                   Manifest.step_number := Manifest.step_number ctx;
                   Manifest.generated_files := Manifest.generated_files ctx;
                   Manifest.execution_log := app (Manifest.execution_log ctx) [entry] |}
                now file Hwf) as (m & Hs & Hwm & Hlm & Hfm).
    rewrite Hs.
    destruct (IH (Some m) Hwm) as (res & Hr & Hwr & Hlr & Hfr).
    { intros c e n Hin. apply (Hfresh c e n). right. exact Hin. }
    exists res. split; [exact Hr|]. split; [exact Hwr|].
    rewrite Hlr, Hfr, Hlm, Hfm. simpl.
    rewrite (Hfresh ctx entry now (or_introl eq_refl)). simpl.
    rewrite <- !app_assoc. split; reflexivity.
Qed.


Lemma manifest_cycles_append_only_witness :
  exists res,
    Manifest.run_steps
      [(ex_mctx "02" ["features/2026-10-14-todo-app/prd.md"],
        "Executed 02-gen-prd.md at 2026-10-14T09:00:00", "2026-10-14T09:00:01+00:00");
       (ex_mctx "03" ["features/2026-10-14-todo-app/srs.md"],
        "Executed 03-gen-srs.md at 2026-10-14T09:05:00", "2026-10-14T09:05:01+00:00")]
      None = inr res /\
    Manifest.well_formed res = true /\
    Manifest.entries "execution_log" res =
      [Manifest.JStr "Executed 02-gen-prd.md at 2026-10-14T09:00:00";
       Manifest.JStr "Executed 03-gen-srs.md at 2026-10-14T09:05:00"] /\
    Manifest.entries "generated_files" res =
      [Manifest.JStr "features/2026-10-14-todo-app/prd.md";
       Manifest.JStr "features/2026-10-14-todo-app/srs.md"].
Proof.
  apply manifest_cycles_append_only.
  - reflexivity.
  - intros ctx entry now Hin. simpl in Hin.
    destruct Hin as [H|[H|[]]]; injection H as <- _ _; reflexivity.
Defined.

(** ** Prompt assembly and the missing-document path *)
Module StrFacts.

Lemma prefix_app (p s t : string) :
  String.prefix p s = true -> String.prefix p (s ++ t) = true.
Proof.
  revert s. induction p as [|a p IH]; intros s H; [destruct (s ++ t); reflexivity|].
  destruct s as [|b s]; simpl in H; [discriminate|].
  simpl. destruct (ascii_dec a b); [apply IH; exact H|discriminate].
Qed.

Lemma prefix_refl_app (s t : string) : String.prefix s (s ++ t) = true.
Proof.
  induction s as [|a s IH]; simpl; [destruct t; reflexivity|].
  destruct (ascii_dec a a) as [_|n]; [exact IH|contradiction].
Qed.

Lemma contains_of_prefix (sub t : string) :
  String.prefix sub t = true -> contains sub t = true.
Proof.
  intro H. destruct t as [|a t].
  - change (contains sub "") with (String.prefix sub "" || false). rewrite H. reflexivity.
  - change (contains sub (String a t)) with (String.prefix sub (String a t) || contains sub t).
    rewrite H. reflexivity.
Qed.

Lemma contains_app_l (sub s t : string) :
  contains sub s = true -> contains sub (s ++ t) = true.
Proof.
  induction s as [|c s IH]; intro H.
  - change (contains sub "") with (String.prefix sub "" || false) in H.
    rewrite orb_false_r in H.
    apply contains_of_prefix. exact (prefix_app sub "" t H).
  - simpl in H |- *. apply orb_true_iff in H as [H|H].
    + apply orb_true_iff. left.
      exact (prefix_app sub (String c s) t H).
    + apply orb_true_iff. right. apply IH. exact H.
Qed.

Lemma contains_app_r (sub s t : string) :
  contains sub t = true -> contains sub (s ++ t) = true.
Proof.
  induction s as [|c s IH]; intro H; [exact H|].
  simpl. apply orb_true_iff. right. apply IH. exact H.
Qed.

Lemma contains_self_app (s t : string) : contains s (s ++ t) = true.
Proof.
  destruct s as [|c s]; simpl.
  - destruct t; reflexivity.
  - apply orb_true_iff. left. exact (prefix_refl_app (String c s) t).
Qed.

Lemma contains_empty (s : string) : contains "" s = true.
Proof. destruct s; reflexivity. Qed.

Lemma contains_split (sep : ascii) (s w : string) :
  In w (CGE.split_char sep s) -> contains w s = true.
Proof.
  revert w. induction s as [|c s IH]; intros w Hin.
  - simpl in Hin. destruct Hin as [<-|[]]. reflexivity.
  - simpl in Hin.
    destruct (Ascii.eqb c sep).
    + destruct Hin as [<-|Hin]; [apply contains_empty|].
      change (String c s) with (String c "" ++ s).
      apply contains_app_r. apply IH. exact Hin.
    + destruct (CGE.split_char sep s) as [|w0 ws] eqn:Hs.
      * destruct Hin as [<-|[]].
        change (String c s) with (String c "" ++ s).
        replace (String c "") with (String c "" ++ "") by reflexivity.
        apply contains_app_l. apply contains_self_app.
      * destruct Hin as [<-|Hin].
        -- change (String c w0) with (String c "" ++ w0).
           change (String c s) with (String c "" ++ s).
           (* [w0] occurs in [s]: extend it by the leading character *)
           assert (H0 : String.prefix w0 s = true).
           { clear IH. revert w0 ws Hs. induction s as [|d s IHs]; intros w0 ws Hs.
             - simpl in Hs. injection Hs as <- _. reflexivity.
             - simpl in Hs. destruct (Ascii.eqb d sep).
               + injection Hs as <- _. destruct s; reflexivity.
               + destruct (CGE.split_char sep s) as [|w1 ws1] eqn:Hs1;
                   injection Hs as <- _; simpl;
                   destruct (ascii_dec d d) as [_|n]; try contradiction.
                 * destruct s; reflexivity.
                 * exact (IHs w1 ws1 eq_refl). }
           simpl. apply orb_true_iff. left.
           destruct (ascii_dec c c) as [_|n]; [exact H0|contradiction].
        -- change (String c s) with (String c "" ++ s).
           apply contains_app_r. apply IH. right. exact Hin.
Qed.

Lemma contains_path_name (s : string) : contains (CGE.path_name s) s = true.
Proof.
  unfold CGE.path_name.
  destruct (filter truthy (CGE.split_char "/" s)) as [|x l] eqn:Hf;
    [apply contains_empty|].
  apply (contains_split "/"). 
  assert (Hin : In (last (x :: l) "") (x :: l)).
  { clear Hf. revert x. induction l as [|y l IHl]; intro x; [left; reflexivity|].
    right. apply IHl. }
  assert (Hin2 : In (last (x :: l) "") (filter truthy (CGE.split_char "/" s)))
    by (rewrite Hf; exact Hin).
  apply filter_In in Hin2. exact (proj1 Hin2).
Qed.

Lemma prefix_refl (s : string) : String.prefix s s = true.
Proof.
  induction s as [|a s IH]; [reflexivity|]. simpl.
  destruct (ascii_dec a a) as [_|n]; [exact IH|contradiction].
Qed.

Lemma contains_refl (s : string) : contains s s = true.
Proof. apply contains_of_prefix, prefix_refl. Qed.

Lemma contains_join_head (sub x sep : string) (l : list string) :
  contains sub x = true -> contains sub (CGE.join sep (x :: l)) = true.
Proof.
  intro H. destruct l as [|y l]; [exact H|].
  change (CGE.join sep (x :: y :: l)) with (x ++ sep ++ CGE.join sep (y :: l)).
  apply contains_app_l. exact H.
Qed.

Lemma truthy_join_head (x sep : string) (l : list string) :
  truthy x = true -> truthy (CGE.join sep (x :: l)) = true.
Proof.
  intro H. destruct x as [|c x]; [discriminate|].
  destruct l as [|y l]; reflexivity.
Qed.

End StrFacts.


(** C6 (counterexample): the MVP runner fails a step whose workflow
    document does not exist: in autonomous mode, with the step's gate set
    to [skip], the run ends with [False] and no generation is started. *)
Lemma missing_document_fails_run :
  Runner.execute_workflow (ex_env false)
    (Ex.cfg1 Gate.AUTONOMOUS [("prd_generation", "skip")])
    [Ex.step "prd_generation"] (Ex.ctx Gate.AUTONOMOUS) false
    {| inputs := []; trace := [] |} =
  (inr false, {| inputs := []; trace := [] |}).
Proof. reflexivity. Qed.

(** C6 (amended): the filename-only fallback exists in prompt assembly,
    not in the runner.  When the referenced document does not exist,
    [_create_specialized_prompt] (given a configuration with common
    instructions and a default validation-criteria entry) raises nothing
    and produces a non-empty prompt containing the document path as given
    and its file name; but the MVP runner's [_execute_document_workflow]
    returns [False] for a step whose document is absent, without starting
    generation, so such a step (when not stopped earlier at a gate) fails. *)
Theorem missing_document_prompt_fallback_runner_fails :
  (forall (json_dumps : dict string -> string) (cfg : CGE.EngineConfig)
          (fs : string -> CGE.FileState) (request : CGE.ContentGenerationRequest)
          (instrs : list string) (vc : dict (list string)) (dflt : list string),
     fs (CGE.workflow_document request) = CGE.Missing ->
     CGE.common_instructions cfg = Some instrs ->
     CGE.validation_criteria_config cfg = Some vc ->
     lookup "default" vc = Some dflt ->
     exists llm_request,
       CGE._create_specialized_prompt json_dumps cfg fs request = inr llm_request /\
       truthy (LLM.prompt llm_request) = true /\
       contains (CGE.workflow_document request) (LLM.prompt llm_request) = true /\
       contains (CGE.path_name (CGE.workflow_document request))
                (LLM.prompt llm_request) = true) /\
  (forall (env : Runner.Env) (step : Gate.WorkflowStep) (st : St),
     Runner.doc_exists env (Gate.doc_name step) = false ->
     Runner._execute_document_workflow env step st = (inr false, st) /\
     (forall gate_decision, gate_decision <> Gate.REQUIRED ->
        Runner._execute_step env step gate_decision st = (inr false, st))).
Proof.
  split.
  - intros json_dumps cfg fs request instrs vc dflt Hfs Hci Hvc Hd.
    unfold CGE._create_specialized_prompt, CGE.document_parts.
    rewrite Hfs. cbn [CGE.sum_bind]. rewrite Hci.
    unfold CGE._get_validation_criteria. rewrite Hvc, Hd. cbn [CGE.sum_bind].
    eexists. split; [reflexivity|]. cbn [LLM.prompt app].
    split; [|split].
    + apply StrFacts.truthy_join_head. reflexivity.
    + apply StrFacts.contains_join_head. apply StrFacts.contains_app_r.
      apply StrFacts.contains_refl.
    + apply StrFacts.contains_join_head. apply StrFacts.contains_app_r.
      apply StrFacts.contains_path_name.
  - intros env step st Hmiss.
    assert (Hd : Runner._execute_document_workflow env step st = (inr false, st)).
    { unfold Runner._execute_document_workflow. rewrite Hmiss. reflexivity. }
    split; [exact Hd|].
    intros gd Hgd. destruct gd; [contradiction|exact Hd..].
Qed.

Lemma missing_document_prompt_fallback_runner_fails_witness :
  (exists llm_request,
     CGE._create_specialized_prompt (fun _ => "{}") ex_engine_config
       (fun _ => CGE.Missing) (ex_generation_request "lean-workflow/02-gen-prd.md")
       = inr llm_request /\
     truthy (LLM.prompt llm_request) = true /\
     contains "lean-workflow/02-gen-prd.md" (LLM.prompt llm_request) = true /\
     contains (CGE.path_name "lean-workflow/02-gen-prd.md") (LLM.prompt llm_request) = true) /\
  Runner._execute_step (ex_env false) (Ex.step "prd_generation") Gate.SKIP
    {| inputs := []; trace := [] |} = (inr false, {| inputs := []; trace := [] |}).
Proof.
  destruct missing_document_prompt_fallback_runner_fails as [Hp Hr].
  split.
  - apply (Hp (fun _ => "{}") ex_engine_config (fun _ => CGE.Missing)
              (ex_generation_request "lean-workflow/02-gen-prd.md") ["Use markdown"]
              [("default", ["not_empty"])] ["not_empty"]); reflexivity.
  - apply (Hr (ex_env false) (Ex.step "prd_generation") _ eq_refl). discriminate.
Defined.

(** C8 (enterprise orchestrator against the MVP orchestrator): in
    autonomous mode, with one step whose gate resolves to [required] and
    the single operator answer ["y"], the MVP runner shows no run
    confirmation, so the answer goes to the gate prompt and the step runs;
    the enterprise runner asks ["Start enterprise workflow execution?
    (y/N)"] anyway, consumes the answer there, and then blocks at the gate
    prompt with no answer left, so the step never runs and the run fails.
    With the empty answer the enterprise run is cancelled at the
    confirmation prompt. *)
Theorem enterprise_autonomous_run_still_confirms :
  Runner.execute_workflow (ex_env true)
    (Ex.cfg1 Gate.AUTONOMOUS [("design_decisions", "required")])
    [Ex.step "design_decisions"] (Ex.ctx Gate.AUTONOMOUS) false
    {| inputs := [Line "y"]; trace := [] |} =
  (inr true, {| inputs := [];
                trace := [EvGatePrompt "design_decisions";
                          EvExecute "04-gen-design-decisions-lite.md"] |}) /\
  ERunner.execute_enterprise_workflow
    (Ex.cfg1 Gate.AUTONOMOUS [("design_decisions", "required")])
    [Ex.estep "design_decisions" false] (Ex.ectx Gate.AUTONOMOUS None) false
    {| inputs := [Line "y"]; trace := [] |} =
  (inr false, {| inputs := [];
                 trace := [EvConfirmPrompt; EvGatePrompt "design_decisions"] |}) /\
  ERunner.execute_enterprise_workflow
    (Ex.cfg1 Gate.AUTONOMOUS [("design_decisions", "required")])
    [Ex.estep "design_decisions" false] (Ex.ectx Gate.AUTONOMOUS None) false
    {| inputs := [Line ""]; trace := [] |} =
  (inr false, {| inputs := []; trace := [EvConfirmPrompt] |}).
Proof. split; [|split]; reflexivity. Qed.

(** C10: at a required gate of the MVP runner, the answer ['s'] has the
    same effect as ['y'] for every step, environment and later input (the
    step's document workflow still runs); but the answer ['?'] (offered as
    "Show more details") does not keep the gate open: formatting
    [step.number - 1] with a string [number] raises [TypeError], which
    [execute_workflow] catches as a step failure, so the run ends with
    [False] before the step runs and without reading the next answer. *)
Theorem gate_skip_approves_help_fails_run :
  (forall (env : Runner.Env) (step : Gate.WorkflowStep) (rest : list Inp)
          (t : list Event),
     Runner._execute_step env step Gate.REQUIRED
       {| inputs := Line "s" :: rest; trace := t |} =
     Runner._execute_step env step Gate.REQUIRED
       {| inputs := Line "y" :: rest; trace := t |}) /\
  Runner.execute_workflow (ex_env true)
    (Ex.cfg1 Gate.AUTONOMOUS [("design_decisions", "required")])
    [Ex.step "design_decisions"] (Ex.ctx Gate.AUTONOMOUS) false
    {| inputs := [Line "?"; Line "y"]; trace := [] |} =
  (inr false, {| inputs := [Line "y"]; trace := [EvGatePrompt "design_decisions"] |}).
Proof.
  split; [|reflexivity].
  intros env step rest t. reflexivity.
Qed.


(** The failure messages [_validate_response] collects, criterion by
    criterion, when no criterion raises. *)
Lemma collect_errors_spec (content : string) (cs : list string) :
  (forall c, In c cs -> exists r, LLM.check_criterion content c = inr r) ->
  LLM.collect_errors content cs =
    inr (flat_map (fun c => match LLM.check_criterion content c with
                            | inr (Some m) => [m] | _ => [] end) cs).
Proof.
  induction cs as [|c cs IH]; intro Hok; [reflexivity|].
  simpl. destruct (Hok c (or_introl eq_refl)) as [r Hr]. rewrite Hr.
  rewrite IH by (intros c' Hc'; apply Hok; right; exact Hc').
  destruct r; reflexivity.
Qed.

Lemma in_failures (content : string) (cs : list string) (m : string) :
  In m (flat_map (fun c => match LLM.check_criterion content c with
                           | inr (Some m) => [m] | _ => [] end) cs) <->
  exists c, In c cs /\ LLM.check_criterion content c = inr (Some m).
Proof.
  rewrite in_flat_map. split.
  - intros [c [Hc Hm]]. exists c. split; [exact Hc|].
    destruct (LLM.check_criterion content c) as [e|[m'|]];
      simpl in Hm; try contradiction.
    destruct Hm as [->|[]]. reflexivity.
  - intros [c [Hc Hm]]. exists c. split; [exact Hc|]. rewrite Hm. left. reflexivity.
Qed.

(** C9: a validation failure is reported, not fatal.  When the selected
    adapter is under its cost limit, allows at least one attempt, and the
    provider answers on the first attempt with a response whose content
    every configured criterion can check (no [min_length:] entry fails to
    parse), [LLMAPIIntegration.generate_content] returns that response with
    its content unchanged, [validated] false exactly when some criterion
    fails, and every failure message in [validation_errors]; and
    [ContentGenerationEngine.generate_content] returns the post-processed
    content of that response, whether it validated or not. *)
Theorem validation_failure_not_fatal
  (json_dumps : dict string -> string) (cfg : CGE.EngineConfig)
  (fs : string -> CGE.FileState) (select : string -> exn + (LLM.LLMConfig * LLM.Tracker))
  (call : nat -> exn + LLM.LLMResponse) (now : string)
  (request : CGE.ContentGenerationRequest) (config : LLM.LLMConfig)
  (tr : LLM.Tracker) (llm_request : LLM.LLMRequest) (cs : list string)
  (resp : LLM.LLMResponse) :
  select (CGE.content_type request) = inr (config, tr) ->
  CGE._create_specialized_prompt json_dumps cfg fs request = inr llm_request ->
  LLM.validation_criteria llm_request = Some cs ->
  cs <> [] ->
  Qle_bool (LLM.cost_limit_usd config) (LLM.total_cost_usd tr) = false ->
  (1 <= LLM.max_retries config)%Z ->
  call 0%nat = inr resp ->
  (forall c, In c cs -> exists r, LLM.check_criterion (LLM.content resp) c = inr r) ->
  exists resp' errs,
    fst (LLM.generate_content call config tr llm_request) = inr (Some resp') /\
    LLM.content resp' = LLM.content resp /\
    LLM.validation_errors resp' = Some errs /\
    (LLM.validated resp' = false <->
       exists c m, In c cs /\ LLM.check_criterion (LLM.content resp) c = inr (Some m)) /\
    (forall c m, In c cs -> LLM.check_criterion (LLM.content resp) c = inr (Some m) ->
       In m errs) /\
    CGE.generate_content json_dumps cfg fs select call now request =
      inr (CGE._post_process_content now (LLM.content resp) request).
Proof.
  intros Hsel Hprompt Hcs Hne Hcost Hmax Hcall Hok.
  pose (errs := flat_map (fun c => match LLM.check_criterion (LLM.content resp) c with
                                   | inr (Some m) => [m] | _ => [] end) cs).
  pose (resp' := {| LLM.content := LLM.content resp;
                    LLM.resp_provider := LLM.resp_provider resp;
                    LLM.resp_model := LLM.resp_model resp;
                    LLM.tokens_used := LLM.tokens_used resp;
                    LLM.cost_usd := LLM.cost_usd resp;
                    LLM.execution_time := LLM.execution_time resp;
                    LLM.validated := Nat.eqb (length errs) 0;
                    LLM.validation_errors := Some errs |}).
  assert (Hgen : fst (LLM.generate_content call config tr llm_request) = inr (Some resp')).
  { unfold LLM.generate_content. rewrite Hcost.
    destruct (Z.to_nat (LLM.max_retries config)) as [|k] eqn:Hn; [lia|].
    cbn [seq LLM.attempts]. rewrite Hcall, Hcs.
    destruct cs as [|c0 cs']; [contradiction|].
    unfold LLM._validate_response. rewrite (collect_errors_spec _ _ Hok).
    reflexivity. }
  exists resp', errs. repeat split.
  - exact Hgen.
  - intro Hv. simpl in Hv. apply Nat.eqb_neq in Hv.
    destruct errs as [|m l] eqn:He; [contradiction|].
    assert (Hm : In m errs) by (rewrite He; left; reflexivity).
    apply in_failures in Hm. destruct Hm as [c [Hc Hm]]. exists c, m. split; assumption.
  - intros [c [m [Hc Hm]]]. simpl. apply Nat.eqb_neq.
    assert (Hin : In m errs) by (apply in_failures; exists c; split; assumption).
    destruct errs; [contradiction|discriminate].
  - intros c m Hc Hm. apply in_failures. exists c. split; assumption.
  - unfold CGE.generate_content. rewrite Hsel. cbn [CGE.sum_bind].
    rewrite Hprompt. cbn [CGE.sum_bind]. rewrite Hgen. reflexivity.
Qed.

Lemma validation_failure_not_fatal_witness :
  exists resp' errs,
    fst (LLM.generate_content (fun _ => inr (ex_response "# PRD")) (ex_config 3) ex_tracker
           (match CGE._create_specialized_prompt (fun _ => "{}")
                    (ex_validating_config ["min_length:50"]) (fun _ => CGE.Missing)
                    (ex_generation_request "lean-workflow/02-gen-prd.md") with
            | inr r => r | inl _ => ex_request None end)) = inr (Some resp') /\
    LLM.content resp' = "# PRD" /\
    LLM.validation_errors resp' = Some errs /\
    (LLM.validated resp' = false <->
       exists c m, In c ["min_length:50"] /\ LLM.check_criterion "# PRD" c = inr (Some m)) /\
    (forall c m, In c ["min_length:50"] -> LLM.check_criterion "# PRD" c = inr (Some m) ->
       In m errs) /\
    CGE.generate_content (fun _ => "{}") (ex_validating_config ["min_length:50"])
      (fun _ => CGE.Missing) (fun _ => inr (ex_config 3, ex_tracker))
      (fun _ => inr (ex_response "# PRD")) "2026-10-14 09:00"
      (ex_generation_request "lean-workflow/02-gen-prd.md") =
      inr (CGE._post_process_content "2026-10-14 09:00" "# PRD"
             (ex_generation_request "lean-workflow/02-gen-prd.md")).
Proof.
  apply (validation_failure_not_fatal (fun _ => "{}") (ex_validating_config ["min_length:50"])
           (fun _ => CGE.Missing) (fun _ => inr (ex_config 3, ex_tracker))
           (fun _ => inr (ex_response "# PRD")) "2026-10-14 09:00"
           (ex_generation_request "lean-workflow/02-gen-prd.md") (ex_config 3) ex_tracker
           _ ["min_length:50"] (ex_response "# PRD")).
  - reflexivity.
  - vm_compute. reflexivity.
  - vm_compute. reflexivity.
  - discriminate.
  - vm_compute. reflexivity.
  - vm_compute. discriminate.
  - reflexivity.
  - intros c [<-|[]]. eexists. vm_compute. reflexivity.
Defined.

(** * Further properties of the orchestrators *)

Module RunnerFacts.

(** The MVP step loop stops at the first step that fails or raises: running
    [p1 ++ p2] is running [p1], then [p2] only when every step of [p1]
    succeeded. *)
Theorem run_plan_app (env : Runner.Env) (p1 p2 : list (Gate.WorkflowStep * Gate.GateDecision))
  (st : St) :
  Runner.run_plan env (app p1 p2) st =
  match Runner.run_plan env p1 st with
  | (inr true, st1) => Runner.run_plan env p2 st1
  | r => r
  end.
Proof.
  revert st. induction p1 as [|[step gd] p1 IH]; intro st; [reflexivity|].
  simpl. unfold bind.
  destruct (catch_Exception (Runner._execute_step env step gd) (fun _ => ret false) st)
    as [[e|[|]] st1]; [reflexivity| |reflexivity].
  apply IH.
Qed.

(** The same for the enterprise step loop. *)
Theorem enterprise_run_plan_app
  (p1 p2 : list (EGate.EnterpriseWorkflowStep * EGate.GateDecision)) (st : St) :
  ERunner.run_plan (app p1 p2) st =
  match ERunner.run_plan p1 st with
  | (inr true, st1) => ERunner.run_plan p2 st1
  | r => r
  end.
Proof.
  revert st. induction p1 as [|[step gd] p1 IH]; intro st; [reflexivity|].
  simpl. unfold bind.
  destruct (catch_Exception (ERunner._execute_enterprise_step step gd) (fun _ => ret false) st)
    as [[e|[|]] st1]; [reflexivity| |reflexivity].
  apply IH.
Qed.

(** At an MVP human gate, answers that are none of [y], [n], empty, [s]
    and [?] (after lowercasing and stripping) are asked again and have no
    effect: the gate behaves as if they had not been given. *)
Theorem gate_ignores_unrecognised_answers (step : Gate.WorkflowStep)
  (bad : list string) (rest : list Inp) :
  Forall (fun b => ~ In (strip (lower b)) ["y"; "n"; ""; "s"; "?"]) bad ->
  Runner.gate_loop step (app (map Line bad) rest) = Runner.gate_loop step rest.
Proof.
  induction 1 as [|b bad Hb _ IH]; [reflexivity|].
  simpl.
  destruct (String.eqb (strip (lower b)) "y") eqn:Ey;
    [apply String.eqb_eq in Ey; exfalso; apply Hb; rewrite Ey; simpl; tauto|].
  destruct (String.eqb (strip (lower b)) "n") eqn:En;
    [apply String.eqb_eq in En; exfalso; apply Hb; rewrite En; simpl; tauto|].
  destruct (String.eqb (strip (lower b)) "") eqn:Ee;
    [apply String.eqb_eq in Ee; exfalso; apply Hb; rewrite Ee; simpl; tauto|].
  destruct (String.eqb (strip (lower b)) "s") eqn:Es;
    [apply String.eqb_eq in Es; exfalso; apply Hb; rewrite Es; simpl; tauto|].
  destruct (String.eqb (strip (lower b)) "?") eqn:Eq;
    [apply String.eqb_eq in Eq; exfalso; apply Hb; rewrite Eq; simpl; tauto|].
  exact IH.
Qed.

Lemma gate_ignores_unrecognised_answers_witness :
  Forall (fun b => ~ In (strip (lower b)) ["y"; "n"; ""; "s"; "?"]) ["yes"; " maybe "] /\
  Runner.gate_loop (Ex.step "design_decisions") (app (map Line ["yes"; " maybe "]) [Line " Y "])
  = Runner.gate_loop (Ex.step "design_decisions") [Line " Y "].
Proof.
  assert (H : Forall (fun b => ~ In (strip (lower b)) ["y"; "n"; ""; "s"; "?"])
                ["yes"; " maybe "]).
  { repeat constructor; simpl; intros H; repeat destruct H as [H|H]; discriminate || exact H. }
  split; [exact H|].
  apply (gate_ignores_unrecognised_answers (Ex.step "design_decisions") ["yes"; " maybe "]
           [Line " Y "] H).
Defined.

(** Ctrl-C at a gate: the MVP runner catches [KeyboardInterrupt] inside its
    gate and ends the run with [False]; the enterprise runner does not, so
    [KeyboardInterrupt] propagates out of its step loop, for a [required]
    gate and for an approval-board gate alike.  No later step is run in
    either case. *)
Theorem ctrl_c_at_gate
  (env : Runner.Env) (step : Gate.WorkflowStep)
  (rest : list (Gate.WorkflowStep * Gate.GateDecision))
  (estep : EGate.EnterpriseWorkflowStep)
  (erest : list (EGate.EnterpriseWorkflowStep * EGate.GateDecision))
  (r : list Inp) (t : list Event) :
  Runner.run_plan env ((step, Gate.REQUIRED) :: rest) {| inputs := CtrlC :: r; trace := t |} =
    (inr false, {| inputs := r; trace := app t [EvGatePrompt (Gate.gate_name step)] |}) /\
  ERunner.run_plan ((estep, EGate.REQUIRED) :: erest) {| inputs := CtrlC :: r; trace := t |} =
    (inl KeyboardInterrupt,
     {| inputs := r; trace := app t [EvGatePrompt (EGate.gate_name estep)] |}) /\
  ERunner.run_plan ((estep, EGate.APPROVAL_BOARD_REQUIRED) :: erest)
    {| inputs := CtrlC :: r; trace := t |} =
    (inl KeyboardInterrupt,
     {| inputs := r; trace := app t [EvBoardPrompt (EGate.gate_name estep)] |}).
Proof. repeat split; reflexivity. Qed.

End RunnerFacts.

Module StepFacts.
Import Steps.

Lemma nodupb_NoDup (l : list string) : nodupb l = true -> NoDup l.
Proof.
  induction l as [|x r IH]; intro H; [constructor|].
  simpl in H. apply andb_prop in H as [Hx Hr].
  constructor; [|exact (IH Hr)].
  intro Hin. apply negb_true_iff in Hx.
  assert (E : existsb (String.eqb x) r = true).
  { apply existsb_exists. exists x. split; [exact Hin|apply String.eqb_refl]. }
  congruence.
Qed.

Lemma steps_from_numbers (k : nat) (sequence : list string) pm deps :
  map Gate.number (steps_from k sequence pm deps) = map pad2 (seq k (length sequence)).
Proof.
  revert k. induction sequence as [|d r IH]; intro k; [reflexivity|].
  simpl. f_equal. apply IH.
Qed.

Lemma steps_from_nth (k : nat) (sequence : list string) pm deps (i : nat)
  (s : Gate.WorkflowStep) :
  nth_error (steps_from k sequence pm deps) i = Some s ->
  Gate.number s = pad2 (k + i) /\ nth_error sequence i = Some (Gate.doc_name s).
Proof.
  revert k i. induction sequence as [|d r IH]; intros k i H.
  - destruct i; discriminate.
  - destruct i as [|i]; simpl in H.
    + injection H as <-. simpl. rewrite Nat.add_0_r. split; reflexivity.
    + destruct (IH (S k) i H) as [H1 H2]. rewrite Nat.add_succ_r. split; assumption.
Qed.

Lemma enterprise_steps_from_numbers (k : nat) (sequence : list string) pm deps :
  map EGate.number (enterprise_steps_from k sequence pm deps) =
  map (fun i => "s" ++ pad2 i) (seq k (length sequence)).
Proof.
  revert k. induction sequence as [|d r IH]; intro k; [reflexivity|].
  simpl. f_equal. apply IH.
Qed.

Lemma enterprise_steps_from_nth (k : nat) (sequence : list string) pm deps (i : nat)
  (s : EGate.EnterpriseWorkflowStep) :
  nth_error (enterprise_steps_from k sequence pm deps) i = Some s ->
  EGate.number s = "s" ++ pad2 (k + i) /\
  EGate.compliance_impact s = existsb (String.eqb ("s" ++ pad2 (k + i))) compliance_critical.
Proof.
  revert k i. induction sequence as [|d r IH]; intros k i H.
  - destruct i; discriminate.
  - destruct i as [|i]; simpl in H.
    + injection H as <-. simpl. rewrite Nat.add_0_r. split; reflexivity.
    + destruct (IH (S k) i H) as [H1 H2]. rewrite Nat.add_succ_r. split; assumption.
Qed.

Lemma enterprise_steps_from_length (k : nat) (sequence : list string) pm deps :
  length (enterprise_steps_from k sequence pm deps) = length sequence.
Proof.
  revert k. induction sequence as [|d r IH]; intro k; [reflexivity|].
  simpl. f_equal. apply IH.
Qed.

Lemma seq_1_prefix (n : nat) :
  (n <= 99)%nat -> seq 1 99 = app (seq 1 n) (seq (1 + n) (99 - n)).
Proof.
  intro Hn. rewrite <- seq_app. f_equal. lia.
Qed.

Lemma NoDup_prefix_map {B} (f : nat -> B) (n : nat) :
  (n <= 99)%nat -> NoDup (map f (seq 1 99)) -> NoDup (map f (seq 1 n)).
Proof.
  intros Hn H. rewrite (seq_1_prefix n Hn), map_app in H.
  exact (NoDup_app_remove_r _ _ H).
Qed.

Lemma pad2_parses_back :
  forallb (fun k => match LLM.py_int (pad2 k) with
                    | Some z => Z.eqb z (Z.of_nat k) | None => false end) (seq 1 99) = true.
Proof. vm_compute. reflexivity. Qed.

Lemma pad2_distinct : nodupb (map pad2 (seq 1 99)) = true.
Proof. vm_compute. reflexivity. Qed.

Lemma enterprise_numbers_distinct : nodupb (map (fun i => "s" ++ pad2 i) (seq 1 99)) = true.
Proof. vm_compute. reflexivity. Qed.

Lemma compliance_positions :
  forallb (fun k => Bool.eqb (existsb (String.eqb ("s" ++ pad2 k)) compliance_critical)
                             (existsb (Nat.eqb k) [3; 4; 6; 7]%nat)) (seq 1 99) = true.
Proof. vm_compute. reflexivity. Qed.

(** The MVP step list (sequences of fewer than 100 documents): one step
    per document in order, numbered by [f"{i:02d}"] so that [int()] of the
    i-th step's number gives back its 1-based position, and no two steps
    share a number. *)
Theorem step_numbers_positional (sequence : list string)
  (phase_mapping dependencies : dict (list string)) :
  (length sequence < 100)%nat ->
  let steps := _initialize_workflow_steps sequence phase_mapping dependencies in
  length steps = length sequence /\
  NoDup (map Gate.number steps) /\
  (forall i s, nth_error steps i = Some s ->
     nth_error sequence i = Some (Gate.doc_name s) /\
     LLM.py_int (Gate.number s) = Some (Z.of_nat (S i))).
Proof.
  intros Hlen steps. subst steps. unfold _initialize_workflow_steps.
  split; [|split].
  - rewrite <- (length_map Gate.number), steps_from_numbers, length_map, length_seq.
    reflexivity.
  - rewrite steps_from_numbers. apply (NoDup_prefix_map pad2); [lia|].
    apply nodupb_NoDup, pad2_distinct.
  - intros i s H.
    assert (Hi : (i < length sequence)%nat).
    { apply nth_error_Some. destruct (steps_from_nth 1 sequence phase_mapping dependencies i s H)
        as [_ E]. rewrite E. discriminate. }
    destruct (steps_from_nth 1 sequence phase_mapping dependencies i s H) as [Hn Hd].
    split; [exact Hd|]. rewrite Hn. change (1 + i)%nat with (S i).
    pose proof (proj1 (forallb_forall _ _) pad2_parses_back (S i)) as P.
    assert (Hin : In (S i) (seq 1 99)) by (apply in_seq; lia).
    specialize (P Hin). simpl in P.
    destruct (LLM.py_int (pad2 (S i))) as [z|]; [|discriminate].
    apply Z.eqb_eq in P. rewrite P. reflexivity.
Qed.

Lemma step_numbers_positional_witness :
  (length ["01-mvp-entrypoint.md"; "02-gen-prd.md"; "03-gen-srs.md"] < 100)%nat /\
  NoDup (map Gate.number
     (_initialize_workflow_steps ["01-mvp-entrypoint.md"; "02-gen-prd.md"; "03-gen-srs.md"]
        [("planning", ["01"; "02"; "03"])] [])).
Proof.
  assert (H : (length ["01-mvp-entrypoint.md"; "02-gen-prd.md"; "03-gen-srs.md"] < 100)%nat)
    by (simpl; lia).
  split; [exact H|].
  exact (proj1 (proj2 (step_numbers_positional
     ["01-mvp-entrypoint.md"; "02-gen-prd.md"; "03-gen-srs.md"]
     [("planning", ["01"; "02"; "03"])] [] H))).
Defined.

(** The enterprise step list (fewer than 100 documents): numbers
    [s01], [s02], ... are distinct, and a step is marked as having
    compliance impact exactly when it is at position 3, 4, 6 or 7. *)
Theorem enterprise_compliance_positions (sequence : list string)
  (phase_mapping dependencies : dict (list string)) :
  (length sequence < 100)%nat ->
  let steps := _initialize_enterprise_workflow_steps sequence phase_mapping dependencies in
  NoDup (map EGate.number steps) /\
  (forall i s, nth_error steps i = Some s ->
     EGate.number s = "s" ++ pad2 (S i) /\
     (EGate.compliance_impact s = true <-> In (S i) [3; 4; 6; 7]%nat)).
Proof.
  intros Hlen steps. subst steps. unfold _initialize_enterprise_workflow_steps.
  split.
  - rewrite enterprise_steps_from_numbers.
    apply (NoDup_prefix_map (fun i => "s" ++ pad2 i)); [lia|].
    apply nodupb_NoDup, enterprise_numbers_distinct.
  - intros i s H.
    assert (Hi : (i < length sequence)%nat).
    { rewrite <- (enterprise_steps_from_length 1 sequence phase_mapping dependencies).
      apply nth_error_Some. rewrite H. discriminate. }
    destruct (enterprise_steps_from_nth 1 sequence phase_mapping dependencies i s H)
      as [Hn Hc].
    split; [exact Hn|]. rewrite Hc.
    pose proof (proj1 (forallb_forall _ _) compliance_positions (S i)) as P.
    assert (Hin : In (S i) (seq 1 99)) by (apply in_seq; lia).
    specialize (P Hin). apply Bool.eqb_prop in P. change (1 + i)%nat with (S i). rewrite P.
    split.
    + intro E. apply existsb_exists in E as [x [Hx Ex]]. apply Nat.eqb_eq in Ex.
      subst x. exact Hx.
    + intro E. apply existsb_exists. exists (S i). split; [exact E|apply Nat.eqb_refl].
Qed.

Lemma enterprise_compliance_positions_witness :
  (length ["s01.md"; "s02.md"; "s03.md"; "s04.md"] < 100)%nat /\
  (EGate.compliance_impact
     {| EGate.number := "s03"; EGate.doc_name := "s03.md"; EGate.phase := "unknown";
        EGate.gate_name := "enterprise_srs_generation"; EGate.dependencies := [];
        EGate.compliance_impact := true |} = true <-> In 3%nat [3; 4; 6; 7]%nat).
Proof.
  assert (H : (length ["s01.md"; "s02.md"; "s03.md"; "s04.md"] < 100)%nat) by (simpl; lia).
  split; [exact H|].
  exact (proj2 (proj2 (enterprise_compliance_positions
     ["s01.md"; "s02.md"; "s03.md"; "s04.md"] [] [] H) 2%nat
     {| EGate.number := "s03"; EGate.doc_name := "s03.md"; EGate.phase := "unknown";
        EGate.gate_name := "enterprise_srs_generation"; EGate.dependencies := [];
        EGate.compliance_impact := true |} eq_refl)).
Defined.

End StepFacts.

Module RiskFacts.
Import EGate.

(** The enterprise risk score is [0.4] plus [0.2] with a compliance
    framework, [0.1] with multi-team coordination and [0.2] with
    architecture impact; it always lies in [[0.4, 1)], so the [min(..., 1.0)]
    cap never changes it.  Without an [enterprise_risk_assessment] section
    in the configuration the assessment raises [KeyError]. *)
Theorem enterprise_risk_score_range (config : list string)
  (context : EnterpriseExecutionContext) :
  (existsb (String.eqb "enterprise_risk_assessment") config = true ->
   exists r, Risk.assess_enterprise_risk_score config context = inr r /\
     (2 # 5 <= r)%Q /\ (r < 1)%Q /\
     (r == (2 # 5) + (if has_framework context then 1 # 5 else 0)
          + (if multi_team_coordination context then 1 # 10 else 0)
          + (if architecture_impact context then 1 # 5 else 0))%Q) /\
  (existsb (String.eqb "enterprise_risk_assessment") config = false ->
   Risk.assess_enterprise_risk_score config context = inl KeyError).
Proof.
  unfold Risk.assess_enterprise_risk_score. split; intro H; rewrite H; [|reflexivity].
  destruct (has_framework context), (multi_team_coordination context),
    (architecture_impact context); eexists; (split; [reflexivity|]);
    (split; [apply Qle_bool_iff; reflexivity|]);
    (split; [apply Qlt_alt; reflexivity|apply Qeq_bool_iff; reflexivity]).
Qed.

Lemma enterprise_risk_score_range_witness :
  existsb (String.eqb "enterprise_risk_assessment") ["enterprise_risk_assessment"] = true /\
  exists r, Risk.assess_enterprise_risk_score ["enterprise_risk_assessment"]
              (Ex.ectx Gate.GUIDED (Some EGate.SOC2)) = inr r /\ (2 # 5 <= r)%Q /\ (r < 1)%Q.
Proof.
  split; [reflexivity|].
  destruct (proj1 (enterprise_risk_score_range ["enterprise_risk_assessment"]
                     (Ex.ectx Gate.GUIDED (Some EGate.SOC2))) eq_refl)
    as [r [H1 [H2 [H3 _]]]].
  exists r. split; [exact H1|]. split; [exact H2|exact H3].
Defined.

End RiskFacts.

Module ProjectFacts.
Import Projects.

Lemma filter_string_all (p : ascii -> bool) (s : string) :
  forallb p (list_ascii_of_string (filter_string p s)) = true.
Proof.
  induction s as [|c s IH]; [reflexivity|]. simpl.
  destruct (p c) eqn:E; simpl; [rewrite E|]; exact IH.
Qed.

Lemma name_char_facts (c : ascii) :
  name_char c = true ->
  lower_char c = c /\ Ascii.eqb c " " = false /\ Ascii.eqb c "_" = false.
Proof.
  destruct c as [[] [] [] [] [] [] [] []]; intro H; vm_compute in H;
    (discriminate H || (split; [reflexivity|split; reflexivity])).
Qed.

Lemma normalized_fixed (n : string) :
  forallb name_char (list_ascii_of_string n) = true ->
  filter_string name_char (replace_char "_" "-" (replace_char " " "-" (lower n))) = n.
Proof.
  induction n as [|c n IH]; intro H; [reflexivity|].
  simpl in H. apply andb_prop in H as [Hc Hn].
  destruct (name_char_facts c Hc) as [Hl [Hs Hu]].
  simpl. rewrite Hl, Hs, Hu, Hc. f_equal. exact (IH Hn).
Qed.

(** [validate_project_name] either raises [ValueError] or returns a
    non-empty name made of [a-z], [0-9] and [-] only, which it returns
    unchanged when validated again (normalisation is idempotent). *)
Theorem validate_project_name_normal_form (project_name : string) :
  validate_project_name project_name = inl ValueError \/
  exists n, validate_project_name project_name = inr n /\
    truthy n = true /\
    forallb name_char (list_ascii_of_string n) = true /\
    validate_project_name n = inr n.
Proof.
  destruct (truthy project_name) eqn:Hp;
    [|left; unfold validate_project_name; rewrite Hp; reflexivity].
  set (n := filter_string name_char
              (replace_char "_" "-" (replace_char " " "-" (lower project_name)))).
  assert (Hv : validate_project_name project_name =
               if negb (truthy n) then inl ValueError else inr n)
    by (unfold validate_project_name; rewrite Hp; reflexivity).
  rewrite Hv. destruct (truthy n) eqn:Hn; [|left; reflexivity]. right.
  exists n. split; [reflexivity|]. split; [exact Hn|].
  assert (Hall : forallb name_char (list_ascii_of_string n) = true)
    by apply filter_string_all.
  split; [exact Hall|].
  unfold validate_project_name. rewrite Hn. simpl.
  rewrite (normalized_fixed n Hall), Hn. reflexivity.
Qed.

Lemma prefix_app_l (a b s : string) :
  String.prefix (a ++ b) s = true -> String.prefix a s = true.
Proof.
  revert s. induction a as [|c a IH]; intros s H; [destruct s; reflexivity|].
  destruct s as [|c' s]; [discriminate|]. simpl in H |- *.
  destruct (ascii_dec c c'); [exact (IH s H)|discriminate].
Qed.

(** Every key [_validate_api_key] accepts for Anthropic it also accepts for
    OpenAI (the OpenAI check only asks for the [sk-] prefix and 20
    characters), and it accepts no key for a provider other than
    [openai], [anthropic] and [google]. *)
Theorem api_key_acceptance (api_key provider : string) :
  (_validate_api_key "anthropic" api_key = true -> _validate_api_key "openai" api_key = true) /\
  (~ In provider ["openai"; "anthropic"; "google"] ->
   _validate_api_key provider api_key = false).
Proof.
  split.
  - unfold _validate_api_key.
    destruct (negb (truthy api_key) || negb (truthy (strip api_key))); [discriminate|].
    simpl. intro H. apply andb_prop in H as [Hp Hl].
    unfold startswith in *. rewrite Hl, andb_true_r.
    exact (prefix_app_l "sk-" "ant-" _ Hp).
  - intro Hn. unfold _validate_api_key.
    destruct (negb (truthy api_key) || negb (truthy (strip api_key))); [reflexivity|].
    destruct (String.eqb provider "openai") eqn:E1;
      [apply String.eqb_eq in E1; subst; exfalso; apply Hn; simpl; tauto|].
    destruct (String.eqb provider "anthropic") eqn:E2;
      [apply String.eqb_eq in E2; subst; exfalso; apply Hn; simpl; tauto|].
    destruct (String.eqb provider "google") eqn:E3;
      [apply String.eqb_eq in E3; subst; exfalso; apply Hn; simpl; tauto|].
    reflexivity.
Qed.

End ProjectFacts.

Module ExecutorFacts.
Import Executor.

(** The outcomes of [_execute_with_ai_agent], with [fb] the result of
    [_execute_with_ai_instructions_fallback] on the unchanged
    [generated_files]:
    - an [Exception] constructing the engine, from [generate_content] on the
      primary output's request, or writing the primary output file, takes
      the fallback; a [KeyboardInterrupt] constructing the engine propagates;
    - when the content is generated and every write succeeds, it returns
      [True] after appending the primary output file, then the status file
      [<step>-output.md];
    - for a document without a primary output file, with every write
      succeeding, it returns [True] after appending only the status file;
    - the fallback, with its temporary file and every write succeeding,
      returns [True] after appending the status file;
    - when every write fails by an [Exception] (and the engine and
      generation fail, if at all, by [Exception]s), it returns [False] and
      leaves [generated_files] as it was. *)
Theorem ai_agent_outcomes (aenv : AgentEnv) (document_path : string)
  (instructions : Instructions) (ctx : Manifest.WorkflowContext)
  (project_data : dict string) :
  let files := Manifest.generated_files ctx in
  let dir := Manifest.feature_dir ctx in
  let status := path_join dir (Manifest.step_number ctx ++ "-output.md") in
  let run := _execute_with_ai_agent aenv document_path instructions ctx project_data in
  let fb := _execute_with_ai_instructions_fallback aenv ctx files in
  let request := agent_request aenv document_path instructions ctx project_data in
  let primary := _get_primary_output_file (CGE.path_name document_path) in
  (forall e, engine_init aenv = inl e -> IO.is_Exception e = true -> run = fb) /\
  (engine_init aenv = inl KeyboardInterrupt -> run = (inl KeyboardInterrupt, files)) /\
  (forall o e, engine_init aenv = inr tt -> primary = Some o -> truthy o = true ->
     generate aenv (request o) = inl e -> IO.is_Exception e = true -> run = fb) /\
  (forall o c e, engine_init aenv = inr tt -> primary = Some o -> truthy o = true ->
     generate aenv (request o) = inr c -> write_file aenv (path_join dir o) = inl e ->
     IO.is_Exception e = true -> run = fb) /\
  (forall o c, engine_init aenv = inr tt -> primary = Some o -> truthy o = true ->
     generate aenv (request o) = inr c -> (forall p, write_file aenv p = inr tt) ->
     run = (inr true, app files [path_join dir o; status])) /\
  (engine_init aenv = inr tt -> primary = None -> (forall p, write_file aenv p = inr tt) ->
     run = (inr true, app files [status])) /\
  (make_temp aenv = inr tt -> (forall p, write_file aenv p = inr tt) ->
     fb = (inr true, app files [status])) /\
  (make_temp aenv = inr tt ->
   (forall e, engine_init aenv = inl e -> IO.is_Exception e = true) ->
   (forall r e, generate aenv r = inl e -> IO.is_Exception e = true) ->
   (forall p, exists e, write_file aenv p = inl e /\ IO.is_Exception e = true) ->
   run = (inr false, files)).
Proof.
  intros files dir status run fb request primary.
  unfold run, _execute_with_ai_agent, agent_body. fold files.
  unfold primary, request in *. cbv zeta.
  split; [|split; [|split; [|split; [|split; [|split; [|split]]]]]].
  - intros e Ei He. rewrite Ei, He. reflexivity.
  - intros Ei. rewrite Ei. reflexivity.
  - intros o e Ei Ho To G He. rewrite Ei, Ho, To, G, He. reflexivity.
  - intros o c e Ei Ho To G W He. rewrite Ei, Ho, To, G. fold dir. rewrite W, He.
    reflexivity.
  - intros o c Ei Ho To G Hw. rewrite Ei, Ho, To, G.
    unfold _create_ai_execution_file. rewrite !Hw. rewrite <- app_assoc. reflexivity.
  - intros Ei Ho Hw. rewrite Ei, Ho. unfold _create_ai_execution_file. rewrite Hw.
    reflexivity.
  - intros Hm Hw. unfold fb, _execute_with_ai_instructions_fallback,
      _create_ai_execution_file. rewrite Hm, Hw. reflexivity.
  - intros Hm Hi Hg Hw.
    assert (Hfb : forall fs, fs = files ->
              _execute_with_ai_instructions_fallback aenv ctx fs = (inr false, files)).
    { intros fs ->. unfold _execute_with_ai_instructions_fallback,
        _create_ai_execution_file. rewrite Hm.
      destruct (Hw (path_join (Manifest.feature_dir ctx)
                      (Manifest.step_number ctx ++ "-output.md"))) as [e [He Ee]].
      rewrite He, Ee. reflexivity. }
    destruct (engine_init aenv) as [e|[]] eqn:Ei.
    + rewrite (Hi e eq_refl). apply Hfb. reflexivity.
    + destruct (_get_primary_output_file (CGE.path_name document_path)) as [o|] eqn:Ho.
      * destruct (truthy o).
        -- destruct (generate aenv _) as [e|c] eqn:G.
           ++ rewrite (Hg _ e G). apply Hfb. reflexivity.
           ++ destruct (Hw (path_join (Manifest.feature_dir ctx) o)) as [e [He Ee]].
              rewrite He, Ee. apply Hfb. reflexivity.
        -- unfold _create_ai_execution_file.
           destruct (Hw status) as [e [He Ee]]. unfold status, dir in He. rewrite He.
           rewrite Ee. apply Hfb. reflexivity.
      * unfold _create_ai_execution_file.
        destruct (Hw status) as [e [He Ee]]. unfold status, dir in He. rewrite He.
        rewrite Ee. apply Hfb. reflexivity.
Qed.

Lemma lookup_some_in {A} (k : string) (d : dict A) :
  lookup k d <> None -> In k (map fst d).
Proof.
  induction d as [|[k' v] d IH]; simpl; [congruence|].
  destruct (String.eqb k k') eqn:E; intro H.
  - left. symmetry. apply String.eqb_eq, E.
  - right. exact (IH H).
Qed.

(** Of the documents with a primary output file, exactly the PRD and the
    project-history documents (MVP and enterprise) get a content type that
    the engine's [content_type_mapping] sends to the [gen_prd] configuration
    (the history types fall through to its [gen_prd] default). *)
Theorem documents_using_gen_prd (document_name : string) :
  _get_primary_output_file document_name <> None ->
  (get CGE.content_type_mapping (_determine_content_type document_name) "gen_prd"
     = "gen_prd" <->
   In document_name ["02-gen-prd.md"; "s04-create-prd-scaling.md";
                     "09-gen-project-history.md"; "s08-gen-enterprise-history.md"]).
Proof.
  intro H. apply lookup_some_in in H. simpl in H.
  repeat (destruct H as [<-|H]; [vm_compute; split; intro K;
    first [ tauto | reflexivity | discriminate K
          | (repeat (destruct K as [K|K]; [discriminate K|])); contradiction ]|]).
  contradiction.
Qed.

End ExecutorFacts.

Module ExecutorWitnesses.

Lemma ai_agent_outcomes_witness :
  Executor._execute_with_ai_agent ExExec.agent_env_ok "workflows/02-gen-prd.md"
    ExExec.no_instructions (ex_mctx "02" []) [] =
    (inr true, ["features/2026-10-14-todo-app/prd.md";
                "features/2026-10-14-todo-app/02-output.md"]) /\
  Executor._execute_with_ai_agent ExExec.agent_env_no_engine "workflows/02-gen-prd.md"
    ExExec.no_instructions (ex_mctx "02" []) [] =
    (inr true, ["features/2026-10-14-todo-app/02-output.md"]) /\
  Executor._execute_with_ai_agent ExExec.agent_env_read_only "workflows/02-gen-prd.md"
    ExExec.no_instructions (ex_mctx "02" []) [] = (inr false, []).
Proof.
  split; [|split].
  - apply (proj1 (proj2 (proj2 (proj2 (proj2 (ExecutorFacts.ai_agent_outcomes
             ExExec.agent_env_ok "workflows/02-gen-prd.md" ExExec.no_instructions
             (ex_mctx "02" []) [])))))
             "prd.md" "# PRD"); reflexivity.
  - rewrite (proj1 (ExecutorFacts.ai_agent_outcomes ExExec.agent_env_no_engine
               "workflows/02-gen-prd.md" ExExec.no_instructions (ex_mctx "02" []) [])
               OSError eq_refl eq_refl).
    apply (proj1 (proj2 (proj2 (proj2 (proj2 (proj2 (proj2
             (ExecutorFacts.ai_agent_outcomes ExExec.agent_env_no_engine
              "workflows/02-gen-prd.md" ExExec.no_instructions (ex_mctx "02" []) []))))))));
      reflexivity.
  - apply (proj2 (proj2 (proj2 (proj2 (proj2 (proj2 (proj2
             (ExecutorFacts.ai_agent_outcomes ExExec.agent_env_read_only
              "workflows/02-gen-prd.md" ExExec.no_instructions (ex_mctx "02" []) []))))))));
      [reflexivity | intros e H; discriminate H | intros r e H; discriminate H |].
    intro p. exists OSError. split; reflexivity.
Defined.

Lemma documents_using_gen_prd_witness :
  Executor._get_primary_output_file "09-gen-project-history.md" <> None /\
  get CGE.content_type_mapping
      (Executor._determine_content_type "09-gen-project-history.md") "gen_prd" = "gen_prd".
Proof.
  assert (H : Executor._get_primary_output_file "09-gen-project-history.md" <> None)
    by discriminate.
  split; [exact H|].
  apply (proj2 (ExecutorFacts.documents_using_gen_prd "09-gen-project-history.md" H)).
  simpl. tauto.
Defined.

End ExecutorWitnesses.

Module UsageFacts.
Import LLM.

Lemma attempts_charge (call : nat -> exn + LLMResponse) (request : LLMRequest)
  (n : Z) (m : nat) : forall r,
  let r' := snd (attempts call request n (seq (calls r) m) r) in
  tracker r' = fold_left (Usage.charge call) (seq (calls r) (calls r' - calls r)) (tracker r) /\
  (calls r <= calls r' <= calls r + m)%nat.
Proof.
  induction m as [|m IH]; intro r; cbv zeta.
  - simpl. rewrite Nat.sub_diag. split; [reflexivity|lia].
  - assert (Hdone : forall r1, calls r1 = S (calls r) ->
              tracker r1 = Usage.charge call (tracker r) (calls r) ->
              tracker r1 = fold_left (Usage.charge call)
                             (seq (calls r) (calls r1 - calls r)) (tracker r) /\
              (calls r <= calls r1 <= calls r + S m)%nat).
    { intros r1 Hc Ht. rewrite Hc, Nat.sub_succ_l, Nat.sub_diag by lia.
      split; [exact Ht|lia]. }
    assert (Hcont : forall r1, calls r1 = S (calls r) ->
              tracker r1 = Usage.charge call (tracker r) (calls r) ->
              let r' := snd (attempts call request n (seq (S (calls r)) m) r1) in
              tracker r' = fold_left (Usage.charge call)
                             (seq (calls r) (calls r' - calls r)) (tracker r) /\
              (calls r <= calls r' <= calls r + S m)%nat).
    { intros r1 Hc Ht. cbv zeta. destruct (IH r1) as [H1 H2]. cbv zeta in H1, H2.
      rewrite Hc in H1, H2.
      set (c' := calls (snd (attempts call request n (seq (S (calls r)) m) r1))) in *.
      replace (c' - calls r)%nat with (S (c' - S (calls r))) by lia.
      simpl. rewrite <- Ht. split; [exact H1|lia]. }
    change (seq (calls r) (S m)) with (calls r :: seq (S (calls r)) m).
    cbn [attempts].
    destruct (call (calls r)) as [e|response] eqn:C;
      [|destruct (validation_criteria request) as [[|c cs]|];
        [| destruct (_validate_response response (c :: cs)) as [e|response'] |]];
      try (destruct (is_Exception e); [destruct (Z.of_nat (calls r) =? n - 1)%Z|]);
      first [ apply Hdone; [reflexivity|unfold Usage.charge; rewrite C; reflexivity]
            | apply Hcont; [reflexivity|unfold Usage.charge; rewrite C; reflexivity] ].
Qed.

(** [generate_content] makes at most [max_retries] provider calls, to
    attempts [0, 1, ...] in order, and the usage tracker it leaves is the
    starting tracker charged with the tokens and cost of every response
    those calls returned, including responses that failed validation or
    whose validation raised. *)
Theorem usage_tracker_charges_every_response (call : nat -> exn + LLMResponse)
  (config : LLMConfig) (usage_tracker : Tracker) (request : LLMRequest) :
  let run := snd (generate_content call config usage_tracker request) in
  tracker run = fold_left (Usage.charge call) (seq 0 (calls run)) usage_tracker /\
  (calls run <= Z.to_nat (max_retries config))%nat.
Proof.
  cbv zeta. unfold generate_content.
  destruct (Qle_bool (cost_limit_usd config) (total_cost_usd usage_tracker)).
  - simpl. split; [reflexivity|lia].
  - pose proof (attempts_charge call request (max_retries config)
                  (Z.to_nat (max_retries config))
                  {| tracker := usage_tracker; calls := 0; sleeps := [] |}) as H.
    cbv zeta in H. simpl in H. rewrite Nat.sub_0_r in H.
    destruct H as [H1 H2]. split; [exact H1|lia].
Qed.

(** With [max_retries <= 0] and the budget not yet reached, [generate_content]
    makes no provider call, sleeps never and returns [None] (the loop body
    never runs), leaving the tracker as it was. *)
Theorem no_attempt_without_retries (call : nat -> exn + LLMResponse)
  (config : LLMConfig) (usage_tracker : Tracker) (request : LLMRequest) :
  (max_retries config <= 0)%Z ->
  (total_cost_usd usage_tracker < cost_limit_usd config)%Q ->
  generate_content call config usage_tracker request =
    (inr None, {| tracker := usage_tracker; calls := 0; sleeps := [] |}).
Proof.
  intros Hn Hc. unfold generate_content.
  replace (Qle_bool (cost_limit_usd config) (total_cost_usd usage_tracker)) with false.
  - replace (Z.to_nat (max_retries config)) with 0%nat by lia. reflexivity.
  - symmetry. apply not_true_iff_false. rewrite Qle_bool_iff.
    apply Qlt_not_le. exact Hc.
Qed.

End UsageFacts.

Module SelectFacts.
Import Select.

Lemma select_workflow_path (data : LLMConfigData) (init_client : LLM.LLMConfig -> exn + unit)
  (eng : Engine) (content_type : string) (wc : WorkflowConfig) :
  lookup (get CGE.content_type_mapping content_type "gen_prd") (workflow_configs data)
    = Some wc ->
  snd (_select_llm_for_content_type data init_client eng content_type) = eng /\
  (forall a sh, fst (_select_llm_for_content_type data init_client eng content_type)
                = inr (a, sh) -> sh = false).
Proof.
  intro L. unfold _select_llm_for_content_type. cbv zeta. rewrite L.
  destruct (lookup _ (providers data)) as [pc|]; [|split; [reflexivity|discriminate]].
  destruct (pc_temperature pc); [|split; [reflexivity|discriminate]].
  destruct (pc_max_tokens pc); [|split; [reflexivity|discriminate]].
  destruct (CGE.sum_bind _ _); split; try reflexivity; try discriminate.
  intros a sh H. injection H as _ <-. reflexivity.
Qed.

(** A content type with a workflow-specific configuration gets a fresh
    adapter per call, so [generate_content] never changes the engine: the
    usage of that call is forgotten.  For the other content types the shared
    [default_llm] keeps its usage: once the prompt is built, the engine
    afterwards holds the same adapter with the tracker as the call left it,
    and nothing else changes.  Once its cost has reached its limit, every
    further such request fails (with the cost-limit [RuntimeError] when the
    prompt can be built) and leaves the engine unchanged, so it keeps
    failing. *)
Theorem engine_state_after_generate (data : LLMConfigData)
  (init_client : LLM.LLMConfig -> exn + unit) (json_dumps : dict string -> string)
  (cfg : CGE.EngineConfig) (fs : string -> CGE.FileState)
  (call : nat -> exn + LLM.LLMResponse) (now : string) (eng : Engine)
  (request : CGE.ContentGenerationRequest) :
  let config_key := get CGE.content_type_mapping (CGE.content_type request) "gen_prd" in
  (lookup config_key (workflow_configs data) <> None ->
   snd (generate_content data init_client json_dumps cfg fs call now eng request) = eng) /\
  (forall config t llm_request,
   lookup config_key (workflow_configs data) = None ->
   default_llm eng = Some (config, t) ->
   CGE._create_specialized_prompt json_dumps cfg fs request = inr llm_request ->
   snd (generate_content data init_client json_dumps cfg fs call now eng request) =
     {| user_provider := user_provider eng; user_model := user_model eng;
        default_provider := default_provider eng;
        default_llm := Some (config,
          LLM.tracker (snd (LLM.generate_content call config t llm_request))) |}) /\
  (forall config t,
   lookup config_key (workflow_configs data) = None ->
   default_llm eng = Some (config, t) ->
   (LLM.cost_limit_usd config <= LLM.total_cost_usd t)%Q ->
   exists e, generate_content data init_client json_dumps cfg fs call now eng request
               = (inl e, eng) /\
     (forall llm_request,
      CGE._create_specialized_prompt json_dumps cfg fs request = inr llm_request ->
      e = RuntimeError "Cost limit exceeded")).
Proof.
  cbv zeta. split; [|split].
  - intro L. destruct (lookup _ (workflow_configs data)) as [wc|] eqn:L'; [|congruence].
    destruct (select_workflow_path data init_client eng (CGE.content_type request) wc L')
      as [Hs Hsh].
    unfold generate_content.
    destruct (_select_llm_for_content_type data init_client eng (CGE.content_type request))
      as [[e|[[config tr] shared]] eng1] eqn:S; simpl in Hs; subst eng1; [reflexivity|].
    rewrite (Hsh _ _ eq_refl).
    destruct (CGE._create_specialized_prompt json_dumps cfg fs request); [reflexivity|].
    destruct (LLM.generate_content call config tr _). reflexivity.
  - intros config t lr L D P. unfold generate_content, _select_llm_for_content_type.
    cbv zeta. rewrite L, D, P.
    destruct (LLM.generate_content call config t lr) as [res run]. reflexivity.
  - intros config t L D Hc. unfold generate_content, _select_llm_for_content_type.
    cbv zeta. rewrite L, D.
    destruct (CGE._create_specialized_prompt json_dumps cfg fs request) as [e|lr] eqn:P.
    + exists e. split; [reflexivity|]. intros lr' H. congruence.
    + unfold LLM.generate_content.
      replace (Qle_bool (LLM.cost_limit_usd config) (LLM.total_cost_usd t)) with true
        by (symmetry; apply Qle_bool_iff; exact Hc).
      exists (RuntimeError "Cost limit exceeded"). split; [|reflexivity].
      destruct eng as [u m dp dl]. simpl in D. subst dl. reflexivity.
Qed.

End SelectFacts.

Module MoreWitnesses.

Lemma api_key_acceptance_witness :
  Projects._validate_api_key "anthropic" "sk-ant-0123456789abcdef" = true /\
  Projects._validate_api_key "openai" "sk-ant-0123456789abcdef" = true /\
  ~ In "mistral" ["openai"; "anthropic"; "google"] /\
  Projects._validate_api_key "mistral" "sk-ant-0123456789abcdef" = false.
Proof.
  assert (Ha : Projects._validate_api_key "anthropic" "sk-ant-0123456789abcdef" = true)
    by reflexivity.
  assert (Hn : ~ In "mistral" ["openai"; "anthropic"; "google"])
    by (simpl; intuition discriminate).
  destruct (ProjectFacts.api_key_acceptance "sk-ant-0123456789abcdef" "mistral") as [H1 H2].
  split; [exact Ha|]. split; [exact (H1 Ha)|]. split; [exact Hn|exact (H2 Hn)].
Defined.

Lemma no_attempt_without_retries_witness :
  (LLM.max_retries (ex_config 0) <= 0)%Z /\
  (LLM.total_cost_usd ex_tracker < LLM.cost_limit_usd (ex_config 0))%Q /\
  LLM.generate_content (fun _ => inr (ex_response "# PRD")) (ex_config 0) ex_tracker
    (ex_request None) =
    (inr None, {| LLM.tracker := ex_tracker; LLM.calls := 0; LLM.sleeps := [] |}).
Proof.
  assert (H1 : (LLM.max_retries (ex_config 0) <= 0)%Z) by (simpl; lia).
  assert (H2 : (LLM.total_cost_usd ex_tracker < LLM.cost_limit_usd (ex_config 0))%Q)
    by (apply Qlt_alt; reflexivity).
  split; [exact H1|]. split; [exact H2|].
  exact (UsageFacts.no_attempt_without_retries (fun _ => inr (ex_response "# PRD"))
           (ex_config 0) ex_tracker (ex_request None) H1 H2).
Defined.

Lemma engine_state_after_generate_witness :
  snd (Select.generate_content ExExec.select_data_workflow (fun _ => inr tt)
         (fun _ => "{}") ex_engine_config (fun _ => CGE.Missing)
         (fun _ => inr (ex_response "# PRD")) "2026-10-14" (ExExec.engine_spent 0)
         (ex_generation_request "workflows/02-gen-prd.md")) = ExExec.engine_spent 0 /\
  (exists lr,
    CGE._create_specialized_prompt (fun _ => "{}") ex_engine_config (fun _ => CGE.Missing)
      (ex_generation_request "workflows/02-gen-prd.md") = inr lr /\
    snd (Select.generate_content ExExec.select_data_default (fun _ => inr tt)
           (fun _ => "{}") ex_engine_config (fun _ => CGE.Missing)
           (fun _ => inr (ex_response "# PRD")) "2026-10-14" (ExExec.engine_spent 0)
           (ex_generation_request "workflows/02-gen-prd.md")) =
      {| Select.user_provider := None; Select.user_model := None;
         Select.default_provider := "openai";
         Select.default_llm := Some (ex_config 3,
           LLM.tracker (snd (LLM.generate_content (fun _ => inr (ex_response "# PRD"))
             (ex_config 3) {| LLM.total_tokens := 0; LLM.total_cost_usd := 0 |} lr))) |}) /\
  exists e,
    Select.generate_content ExExec.select_data_default (fun _ => inr tt)
      (fun _ => "{}") ex_engine_config (fun _ => CGE.Missing)
      (fun _ => inr (ex_response "# PRD")) "2026-10-14" (ExExec.engine_spent 10)
      (ex_generation_request "workflows/02-gen-prd.md") = (inl e, ExExec.engine_spent 10).
Proof.
  split; [|split].
  - apply (proj1 (SelectFacts.engine_state_after_generate ExExec.select_data_workflow
             (fun _ => inr tt) (fun _ => "{}") ex_engine_config (fun _ => CGE.Missing)
             (fun _ => inr (ex_response "# PRD")) "2026-10-14" (ExExec.engine_spent 0)
             (ex_generation_request "workflows/02-gen-prd.md"))).
    discriminate.
  - destruct (CGE._create_specialized_prompt (fun _ => "{}") ex_engine_config
                (fun _ => CGE.Missing) (ex_generation_request "workflows/02-gen-prd.md"))
      as [e|lr] eqn:P; [vm_compute in P; discriminate P|].
    exists lr. split; [reflexivity|].
    exact (proj1 (proj2 (SelectFacts.engine_state_after_generate
             ExExec.select_data_default
             (fun _ => inr tt) (fun _ => "{}") ex_engine_config (fun _ => CGE.Missing)
             (fun _ => inr (ex_response "# PRD")) "2026-10-14" (ExExec.engine_spent 0)
             (ex_generation_request "workflows/02-gen-prd.md")))
             (ex_config 3) {| LLM.total_tokens := 0; LLM.total_cost_usd := 0 |} lr
             eq_refl eq_refl P).
  - destruct (proj2 (proj2 (SelectFacts.engine_state_after_generate
             ExExec.select_data_default
             (fun _ => inr tt) (fun _ => "{}") ex_engine_config (fun _ => CGE.Missing)
             (fun _ => inr (ex_response "# PRD")) "2026-10-14" (ExExec.engine_spent 10)
             (ex_generation_request "workflows/02-gen-prd.md")))
             (ex_config 3) {| LLM.total_tokens := 0; LLM.total_cost_usd := 10 |}
             eq_refl eq_refl ltac:(apply Qle_bool_iff; reflexivity)) as [e [He _]].
    exists e. exact He.
Defined.

End MoreWitnesses.

Module ValidationRetryFacts.
Import LLM.

Lemma check_criterion_raises_ValueError (content criterion : string) (e : exn) :
  check_criterion content criterion = inl e -> e = ValueError.
Proof.
  intro H. unfold check_criterion in H.
  repeat match type of H with
  | context [if ?b then _ else _] => destruct b
  | context [match ?x with Some _ => _ | None => _ end] => destruct x
  end; congruence.
Qed.

Lemma validate_response_raises_ValueError (response : LLMResponse) (cs : list string)
  (e : exn) : _validate_response response cs = inl e -> e = ValueError.
Proof.
  unfold _validate_response.
  destruct (collect_errors (content response) cs) as [e'|] eqn:H; [|discriminate].
  intro He. injection He as <-. revert e' H.
  induction cs as [|c cs IH]; simpl; intros e' H; [discriminate|].
  destruct (check_criterion (content response) c) as [e0|r] eqn:Hc.
  - injection H as <-. exact (check_criterion_raises_ValueError _ _ _ Hc).
  - destruct (collect_errors (content response) cs) as [e1|]; [|discriminate].
    injection H as <-. exact (IH e1 eq_refl).
Qed.

Section AllInvalid.

Variable call : nat -> exn + LLMResponse.
Variable request : LLMRequest.
Variables (c : string) (cs : list string) (e : exn).
Hypothesis Hvc : validation_criteria request = Some (c :: cs).
Hypothesis Hcall : forall a, exists response,
  call a = inr response /\ _validate_response response (c :: cs) = inl e.

Lemma attempts_all_invalid (n : Z) : forall k start r,
  Z.of_nat (start + k)%nat = (n - 1)%Z ->
  fst (attempts call request n (seq start (S k)) r) = inl e /\
  calls (snd (attempts call request n (seq start (S k)) r)) = (calls r + S k)%nat /\
  sleeps (snd (attempts call request n (seq start (S k)) r)) =
    app (sleeps r) (map (fun i => 2 ^ Z.of_nat i)%Z (seq start k)).
Proof.
  assert (He : is_Exception e = true)
    by (destruct (Hcall 0%nat) as [r0 [_ V0]];
        rewrite (validate_response_raises_ValueError _ _ _ V0); reflexivity).
  induction k as [|k IH]; intros start r Hn.
  - change (seq start 1) with [start]. cbn [attempts].
    destruct (Hcall start) as [response [C V]]. rewrite C, Hvc. cbv beta iota.
    rewrite V, He. rewrite Nat.add_0_r in Hn. rewrite Hn, Z.eqb_refl.
    simpl. split; [reflexivity|]. split; [lia|]. rewrite app_nil_r. reflexivity.
  - change (seq start (S (S k))) with (start :: seq (S start) (S k)). cbn [attempts].
    destruct (Hcall start) as [response [C V]]. rewrite C, Hvc. cbv beta iota.
    rewrite V, He.
    assert (Hne : (Z.of_nat start =? n - 1)%Z = false) by (apply Z.eqb_neq; lia).
    rewrite Hne.
    destruct (IH (S start) (record_sleep (record_usage (record_call r) response)
                                         (2 ^ Z.of_nat start)))
      as [H1 [H2 H3]]; [rewrite <- Hn; f_equal; lia|].
    split; [exact H1|]. split; [rewrite H2; simpl; lia|].
    rewrite H3. simpl. rewrite <- app_assoc. reflexivity.
Qed.

End AllInvalid.

(** When every provider call answers but validating the answer raises
    (a [min_length:] criterion whose bound is not an integer, say), the
    answer is not returned: the raise is retried like a failed call, and
    after [max_retries] calls, with delays 1, 2, 4, ... seconds, the
    exception of the last validation is raised. *)
Theorem raising_validation_exhausts_retries (call : nat -> exn + LLMResponse)
  (config : LLMConfig) (usage_tracker : Tracker) (request : LLMRequest)
  (c : string) (cs : list string) (e : exn) :
  (total_cost_usd usage_tracker < cost_limit_usd config)%Q ->
  (1 <= max_retries config)%Z ->
  validation_criteria request = Some (c :: cs) ->
  (forall a, exists response,
     call a = inr response /\ _validate_response response (c :: cs) = inl e) ->
  fst (generate_content call config usage_tracker request) = inl e /\
  calls (snd (generate_content call config usage_tracker request))
    = Z.to_nat (max_retries config) /\
  sleeps (snd (generate_content call config usage_tracker request))
    = map (fun i => 2 ^ Z.of_nat i)%Z (seq 0 (Z.to_nat (max_retries config) - 1)).
Proof.
  intros Hc Hn Hvc Hcall. unfold generate_content.
  replace (Qle_bool (cost_limit_usd config) (total_cost_usd usage_tracker)) with false
    by (symmetry; apply not_true_iff_false; rewrite Qle_bool_iff;
        apply Qlt_not_le; exact Hc).
  destruct (Z.to_nat (max_retries config)) as [|k] eqn:Hk; [lia|].
  destruct (attempts_all_invalid call request c cs e Hvc Hcall (max_retries config) k 0
              {| tracker := usage_tracker; calls := 0; sleeps := [] |})
    as [H1 [H2 H3]]; [simpl; lia|].
  split; [exact H1|]. split; [exact H2|]. rewrite H3. simpl. rewrite Nat.sub_0_r.
  reflexivity.
Qed.

End ValidationRetryFacts.

Module ValidationRetryWitness.

Lemma raising_validation_exhausts_retries_witness :
  (LLM.total_cost_usd ex_tracker < LLM.cost_limit_usd (ex_config 3))%Q /\
  fst (LLM.generate_content (fun _ => inr (ex_response "# PRD")) (ex_config 3) ex_tracker
         (ex_request (Some ["min_length:abc"]))) = inl ValueError /\
  LLM.sleeps (snd (LLM.generate_content (fun _ => inr (ex_response "# PRD")) (ex_config 3)
         ex_tracker (ex_request (Some ["min_length:abc"])))) = [1; 2]%Z.
Proof.
  assert (Hc : (LLM.total_cost_usd ex_tracker < LLM.cost_limit_usd (ex_config 3))%Q)
    by (apply Qlt_alt; reflexivity).
  destruct (ValidationRetryFacts.raising_validation_exhausts_retries
              (fun _ => inr (ex_response "# PRD")) (ex_config 3) ex_tracker
              (ex_request (Some ["min_length:abc"])) "min_length:abc" [] ValueError
              Hc ltac:(simpl; lia) eq_refl
              (fun a => ex_intro _ (ex_response "# PRD") (conj eq_refl eq_refl)))
    as [H1 [_ H3]].
  split; [exact Hc|]. split; [exact H1|]. rewrite H3. reflexivity.
Defined.

End ValidationRetryWitness.

Module PostProcessFacts.
Import CGE.

Lemma split_char_nonempty (sep : ascii) (s : string) : split_char sep s <> [].
Proof.
  destruct s as [|c s]; simpl; [discriminate|].
  destruct (Ascii.eqb c sep); [discriminate|].
  destruct (split_char sep s); discriminate.
Qed.

Lemma join_cons_char (sep : string) (c : ascii) (w : string) (ws : list string) :
  join sep (String c w :: ws) = String c (join sep (w :: ws)).
Proof. destruct ws; reflexivity. Qed.

(** [sep.join(s.split(sep))] is [s]. *)
Lemma join_split_char (sep : ascii) (s : string) :
  join (String sep EmptyString) (split_char sep s) = s.
Proof.
  induction s as [|c s IH]; [reflexivity|]. cbn [split_char].
  destruct (Ascii.eqb c sep) eqn:E.
  - apply Ascii.eqb_eq in E. subst c.
    destruct (split_char sep s) as [|w ws] eqn:Hs;
      [exfalso; exact (split_char_nonempty sep s Hs)|].
    transitivity (String sep (join (String sep EmptyString) (w :: ws)));
      [reflexivity|rewrite IH; reflexivity].
  - destruct (split_char sep s) as [|w ws] eqn:Hs;
      [exfalso; exact (split_char_nonempty sep s Hs)|].
    rewrite join_cons_char, IH. reflexivity.
Qed.

(** The first piece of [s.split(sep)] has no [sep] in it. *)
Lemma split_char_first_no_sep (sep : ascii) (s first : string) (rest : list string) :
  split_char sep s = first :: rest -> ~ In sep (list_ascii_of_string first).
Proof.
  revert first rest. induction s as [|c s IH]; intros first rest H; simpl in H.
  - injection H as <- _. simpl. tauto.
  - destruct (Ascii.eqb c sep) eqn:E; [injection H as <- _; simpl; tauto|].
    destruct (split_char sep s) as [|w ws] eqn:Hs; injection H as <- _; simpl.
    + intros [Hc|[]]. subst c. rewrite Ascii.eqb_refl in E. discriminate.
    + intros [Hc|Hin]; [subst c; rewrite Ascii.eqb_refl in E; discriminate|].
      exact (IH w ws eq_refl Hin).
Qed.

(** [_post_process_content] wraps the answer between its header and footer
    and drops at most the first line of the stripped answer.  With [first]
    that line (the text of the stripped answer before its first newline) and
    [rest] the lines after it: the stripped answer is kept whole when
    [first] does not start with [#], or when it names no word of the
    lower-cased feature name; when [first] is a [#] line naming such a
    word, what follows is the stripped rest of the answer. *)
Theorem post_process_drops_only_title_line (now content : string)
  (request : ContentGenerationRequest) :
  let sc := strip content in
  let feature_words := words (lower (feature_name (context request))) in
  let out := _post_process_content now content request in
  let wrap := fun body => _post_process_header now request ++ body ++
                          _post_process_footer request in
  exists first rest,
    split_char "010"%char sc = first :: rest /\
    sc = join nl (first :: rest) /\
    ~ In "010"%char (list_ascii_of_string first) /\
    (startswith first "#" = false -> out = wrap sc) /\
    (existsb (fun word => contains word (lower first)) feature_words = false ->
     out = wrap sc) /\
    (startswith first "#" = true ->
     existsb (fun word => contains word (lower first)) feature_words = true ->
     out = wrap (strip (join nl rest))).
Proof.
  cbv zeta. unfold _post_process_content, _clean_content. cbv zeta.
  destruct (split_char "010"%char (strip content)) as [|first rest] eqn:Hs;
    [exfalso; exact (split_char_nonempty _ _ Hs)|].
  exists first, rest. split; [reflexivity|]. split; [|split; [|split; [|split]]].
  - rewrite <- Hs. symmetry. apply join_split_char.
  - exact (split_char_first_no_sep _ _ _ _ Hs).
  - intro H. rewrite H. reflexivity.
  - intro H. rewrite H, andb_false_r. reflexivity.
  - intros H1 H2. rewrite H1, H2. reflexivity.
Qed.


End PostProcessFacts.

Module ManifestSaveFacts.
Import Manifest.

Lemma extend_key_fails (key : string) (items : list string) (d : list (string * json)) :
  list_or_absent key d = false -> extend_key key items d = inl AttributeError.
Proof.
  unfold list_or_absent, extend_key.
  destruct (lookup key d) as [j|] eqn:Hl; [|discriminate].
  rewrite Hl. destruct j; intro H; try discriminate; reflexivity.
Qed.

Lemma extend_key_others (key : string) (items : list string) (d d' : list (string * json)) :
  extend_key key items d = inr d' -> forall k, k <> key -> lookup k d' = lookup k d.
Proof.
  unfold extend_key. intros H k Hk.
  destruct (lookup key d) as [j|] eqn:Hl.
  - rewrite Hl in H. destruct j; try discriminate. injection H as <-.
    apply ManifestFacts.lookup_set_key_neq. exact Hk.
  - rewrite ManifestFacts.lookup_set_key_eq in H. injection H as <-.
    rewrite !ManifestFacts.lookup_set_key_neq by exact Hk. reflexivity.
Qed.

Lemma save_ok_iff_well_formed (ctx : WorkflowContext) (now : string)
  (file : option json) :
  (exists m, save_to_manifest ctx now file = inr m) <-> well_formed file = true.
Proof.
  split.
  - intros [m H]. destruct file as [j|]; [|reflexivity].
    destruct j as [| | | | |d]; try discriminate. simpl.
    unfold save_to_manifest in H.
    destruct (lookup "workflow_status" d) as [[| | | | |ws]|]; try discriminate.
    set (d1 := set_key "workflow_status" _ d) in H.
    destruct (list_or_absent "execution_log" d) eqn:L1.
    2:{ assert (L1' : list_or_absent "execution_log" d1 = false).
        { unfold list_or_absent, d1. rewrite ManifestFacts.lookup_set_key_neq
            by discriminate. exact L1. }
        rewrite (extend_key_fails _ _ _ L1') in H. discriminate. }
    destruct (extend_key "execution_log" (execution_log ctx) d1) as [e|d2] eqn:E2;
      [discriminate|].
    destruct (list_or_absent "generated_files" d) eqn:L2; [reflexivity|].
    assert (L2' : list_or_absent "generated_files" d2 = false).
    { unfold list_or_absent.
      rewrite (extend_key_others _ _ _ _ E2) by discriminate. unfold d1.
      rewrite ManifestFacts.lookup_set_key_neq by discriminate. exact L2. }
    rewrite (extend_key_fails _ _ _ L2') in H. discriminate.
  - intro H. destruct (ManifestFacts.save_to_manifest_spec ctx now file H) as [m [Hm _]].
    exists m. exact Hm.
Qed.

Lemma extend_key_error (key : string) (items : list string) (d : list (string * json))
  (e : exn) : extend_key key items d = inl e -> e = AttributeError.
Proof.
  unfold extend_key. destruct (lookup key _) as [[| | | | |]|]; congruence.
Qed.

(** The exceptions [save_to_manifest] raises on the manifest it read. *)
Lemma save_to_manifest_error (ctx : WorkflowContext) (now : string)
  (file : option json) (e : exn) :
  save_to_manifest ctx now file = inl e ->
  e = KeyError \/ e = TypeError \/ e = AttributeError.
Proof.
  unfold save_to_manifest.
  destruct (match file with Some m => m | None => _ end) as [| | | | |d];
    try (intro H; injection H as <-; tauto).
  destruct (lookup "workflow_status" d) as [[| | | | |ws]|];
    try (intro H; injection H as <-; tauto).
  destruct (extend_key "execution_log" _ _) as [e'|d2] eqn:E2.
  - intro H. injection H as <-. right; right. exact (extend_key_error _ _ _ _ E2).
  - destruct (extend_key "generated_files" _ _) as [e'|d3] eqn:E3; [|discriminate].
    intro H. injection H as <-. right; right. exact (extend_key_error _ _ _ _ E3).
Qed.

(** Saving the manifest with its file accesses:
    - when every write succeeds, the save succeeds exactly when the
      manifest read is well formed (no file, or an object whose
      [workflow_status] is an object and whose [execution_log] and
      [generated_files], when present, are lists);
    - an ill-formed manifest raises [KeyError], [TypeError] or
      [AttributeError] before the file is opened for writing: the same
      exception whatever the write would do;
    - on a well-formed manifest, an exception of the write (such as
      [PermissionError]) propagates;
    - an exception reading the manifest propagates. *)
Theorem save_to_manifest_file_outcomes (ctx : WorkflowContext) (now : string)
  (file : option json) :
  (forall write, (forall j, write j = inr tt) ->
     ((exists m, save_to_manifest_file ctx now (inr file) write = inr m) <->
      well_formed file = true)) /\
  (well_formed file = false ->
   exists e, (e = KeyError \/ e = TypeError \/ e = AttributeError) /\
     forall write, save_to_manifest_file ctx now (inr file) write = inl e) /\
  (forall write e, well_formed file = true -> (forall j, write j = inl e) ->
     save_to_manifest_file ctx now (inr file) write = inl e) /\
  (forall write e, save_to_manifest_file ctx now (inl e) write = inl e).
Proof.
  split; [|split; [|split]].
  - intros write Hw. rewrite <- (save_ok_iff_well_formed ctx now file).
    unfold save_to_manifest_file.
    destruct (save_to_manifest ctx now file) as [e|m].
    + simpl. split; intros [m H]; discriminate H.
    + rewrite Hw. split; intros _; exists m; reflexivity.
  - intro Hf. destruct (save_to_manifest ctx now file) as [e|m] eqn:S.
    + exists e. split; [exact (save_to_manifest_error _ _ _ _ S)|].
      intro write. unfold save_to_manifest_file. rewrite S. reflexivity.
    + assert (Hok : well_formed file = true)
        by (apply (proj1 (save_ok_iff_well_formed ctx now file)); exists m; exact S).
      congruence.
  - intros write e Hf Hw.
    destruct (proj2 (save_ok_iff_well_formed ctx now file) Hf) as [m S].
    unfold save_to_manifest_file. rewrite S, Hw. reflexivity.
  - reflexivity.
Qed.

(** A successful save changes only [workflow_status], [execution_log] and
    [generated_files] of the manifest it read (or of the base manifest when
    there was none): every other top-level key keeps its value; in
    [workflow_status] it sets [current_phase] and [last_updated] and keeps
    every other entry. *)
Theorem save_to_manifest_frame (ctx : WorkflowContext) (now : string)
  (file : option json) (m : json) :
  save_to_manifest ctx now file = inr m ->
  exists d0 ws0 d ws,
    match file with Some j => j | None => _create_base_manifest ctx now end = JObj d0 /\
    lookup "workflow_status" d0 = Some (JObj ws0) /\
    m = JObj d /\
    lookup "workflow_status" d = Some (JObj ws) /\
    lookup "current_phase" ws = Some (JStr (phase ctx)) /\
    lookup "last_updated" ws = Some (JStr now) /\
    (forall k, k <> "current_phase" -> k <> "last_updated" -> lookup k ws = lookup k ws0) /\
    (forall k, k <> "workflow_status" -> k <> "execution_log" -> k <> "generated_files" ->
       lookup k d = lookup k d0).
Proof.
  unfold save_to_manifest. intro H.
  destruct (match file with Some j => j | None => _create_base_manifest ctx now end)
    as [| | | | |d0]; try discriminate.
  destruct (lookup "workflow_status" d0) as [[| | | | |ws0]|] eqn:Hws; try discriminate.
  set (ws := set_key "last_updated" (JStr now)
               (set_key "current_phase" (JStr (phase ctx)) ws0)) in H.
  set (d1 := set_key "workflow_status" (JObj ws) d0) in H.
  destruct (extend_key "execution_log" (execution_log ctx) d1) as [e|d2] eqn:E2;
    [discriminate|].
  destruct (extend_key "generated_files" (generated_files ctx) d2) as [e|d3] eqn:E3;
    [discriminate|].
  injection H as <-.
  exists d0, ws0, d3, ws. split; [reflexivity|]. split; [exact Hws|].
  split; [reflexivity|].
  assert (Hd3 : forall k, k <> "execution_log" -> k <> "generated_files" ->
                lookup k d3 = lookup k d1).
  { intros k H1 H2. rewrite (extend_key_others _ _ _ _ E3 k H2).
    exact (extend_key_others _ _ _ _ E2 k H1). }
  split.
  { rewrite Hd3 by discriminate. unfold d1. apply ManifestFacts.lookup_set_key_eq. }
  split.
  { unfold ws. rewrite ManifestFacts.lookup_set_key_neq by discriminate.
    apply ManifestFacts.lookup_set_key_eq. }
  split; [unfold ws; apply ManifestFacts.lookup_set_key_eq|].
  split.
  - intros k H1 H2. unfold ws. rewrite !ManifestFacts.lookup_set_key_neq by assumption.
    reflexivity.
  - intros k H1 H2 H3. rewrite Hd3 by assumption. unfold d1.
    apply ManifestFacts.lookup_set_key_neq. exact H1.
Qed.

End ManifestSaveFacts.

Module OutputFileFacts.
Import Executor.

Lemma lookup_some_in_pair {A} (k : string) (v : A) (d : dict A) :
  lookup k d = Some v -> In (k, v) d.
Proof.
  induction d as [|[k' v'] d IH]; simpl; [discriminate|].
  destruct (String.eqb k k') eqn:E; intro H.
  - apply String.eqb_eq in E. subst k'. injection H as ->. left. reflexivity.
  - right. exact (IH H).
Qed.

Lemma NoDup_snd_inj {A B} (l : list (A * B)) (a b : A) (v : B) :
  NoDup (map snd l) -> In (a, v) l -> In (b, v) l -> a = b.
Proof.
  induction l as [|[x y] l IH]; simpl; [contradiction|].
  intros Hnd Ha Hb. inversion Hnd as [|? ? Hy Hnd']. subst.
  destruct Ha as [Ha|Ha], Hb as [Hb|Hb].
  - congruence.
  - assert (y = v) by congruence. subst y. exfalso. apply Hy.
    apply in_map_iff. exists (b, v). auto.
  - assert (y = v) by congruence. subst y. exfalso. apply Hy.
    apply in_map_iff. exists (a, v). auto.
  - exact (IH Hnd' Ha Hb).
Qed.

(** No two workflow documents have the same primary output file, so the
    AI agent of one step never overwrites the document generated by
    another. *)
Theorem primary_output_files_distinct (document_name1 document_name2 output : string) :
  _get_primary_output_file document_name1 = Some output ->
  _get_primary_output_file document_name2 = Some output ->
  document_name1 = document_name2.
Proof.
  intros H1 H2.
  apply (NoDup_snd_inj output_file_mapping document_name1 document_name2 output).
  - apply StepFacts.nodupb_NoDup. vm_compute. reflexivity.
  - exact (lookup_some_in_pair _ _ _ H1).
  - exact (lookup_some_in_pair _ _ _ H2).
Qed.

End OutputFileFacts.

Module FactWitnesses.

Lemma post_process_drops_only_title_line_witness :
  CGE._post_process_content "2026-10-14 10:00:00" "  # Todo App PRD
Body
" (ex_generation_request "workflows/02-gen-prd.md") =
    CGE._post_process_header "2026-10-14 10:00:00"
      (ex_generation_request "workflows/02-gen-prd.md") ++ "Body" ++
    CGE._post_process_footer (ex_generation_request "workflows/02-gen-prd.md") /\
  CGE._post_process_content "2026-10-14 10:00:00" "# Overview
Body" (ex_generation_request "workflows/02-gen-prd.md") =
    CGE._post_process_header "2026-10-14 10:00:00"
      (ex_generation_request "workflows/02-gen-prd.md") ++ "# Overview
Body" ++ CGE._post_process_footer (ex_generation_request "workflows/02-gen-prd.md").
Proof.
  split.
  - destruct (PostProcessFacts.post_process_drops_only_title_line "2026-10-14 10:00:00"
                "  # Todo App PRD
Body
" (ex_generation_request "workflows/02-gen-prd.md"))
      as [first [rest [Hs [_ [_ [_ [_ H3]]]]]]].
    vm_compute in Hs. injection Hs as Hf Hr. subst first rest.
    rewrite (H3 eq_refl eq_refl). reflexivity.
  - destruct (PostProcessFacts.post_process_drops_only_title_line "2026-10-14 10:00:00"
                "# Overview
Body" (ex_generation_request "workflows/02-gen-prd.md"))
      as [first [rest [Hs [_ [_ [_ [H2 _]]]]]]].
    vm_compute in Hs. injection Hs as Hf Hr. subst first rest.
    rewrite (H2 eq_refl). reflexivity.
Defined.


Lemma save_to_manifest_file_outcomes_witness :
  (exists m, Manifest.save_to_manifest_file (ex_mctx "02" []) "2026-10-14T10:00:00"
               (inr None) (fun _ => inr tt) = inr m) /\
  Manifest.save_to_manifest_file (ex_mctx "02" []) "2026-10-14T10:00:00"
    (inr (Some (Manifest.JObj [("workflow_status", Manifest.JList [])])))
    (fun _ => inr tt) = inl TypeError /\
  Manifest.save_to_manifest_file (ex_mctx "02" []) "2026-10-14T10:00:00"
    (inr None) (fun _ => inl OSError) = inl OSError.
Proof.
  split; [|split].
  - apply (proj1 (ManifestSaveFacts.save_to_manifest_file_outcomes (ex_mctx "02" [])
             "2026-10-14T10:00:00" None) (fun _ => inr tt) (fun _ => eq_refl)).
    reflexivity.
  - destruct (proj1 (proj2 (ManifestSaveFacts.save_to_manifest_file_outcomes
                (ex_mctx "02" []) "2026-10-14T10:00:00"
                (Some (Manifest.JObj [("workflow_status", Manifest.JList [])]))))
                eq_refl) as [e [_ He]].
    rewrite He. specialize (He (fun _ => inr tt)). vm_compute in He.
    injection He as <-. reflexivity.
  - apply (proj1 (proj2 (proj2 (ManifestSaveFacts.save_to_manifest_file_outcomes
             (ex_mctx "02" []) "2026-10-14T10:00:00" None)))); reflexivity.
Defined.

Lemma save_to_manifest_frame_witness :
  exists m, Manifest.save_to_manifest (ex_mctx "02" ["features/2026-10-14-todo-app/prd.md"])
    "2026-10-14T10:00:00"
    (Some (Manifest.JObj [("workflow_status",
                           Manifest.JObj [("current_phase", Manifest.JStr "init")]);
                          ("document_status", Manifest.JObj [])])) = inr m /\
  exists d, m = Manifest.JObj d /\ lookup "document_status" d = Some (Manifest.JObj []).
Proof.
  eexists. split; [reflexivity|].
  destruct (ManifestSaveFacts.save_to_manifest_frame
              (ex_mctx "02" ["features/2026-10-14-todo-app/prd.md"]) "2026-10-14T10:00:00"
              (Some (Manifest.JObj [("workflow_status",
                                     Manifest.JObj [("current_phase", Manifest.JStr "init")]);
                                    ("document_status", Manifest.JObj [])])) _ eq_refl)
    as (d0 & ws0 & d & ws & H0 & _ & Hm & _ & _ & _ & _ & Hk).
  exists d. split; [exact Hm|].
  rewrite (Hk "document_status") by discriminate. injection H0 as <-. reflexivity.
Defined.

Lemma primary_output_files_distinct_witness :
  Executor._get_primary_output_file "02-gen-prd.md" = Some "prd.md" /\
  "02-gen-prd.md" = "02-gen-prd.md".
Proof.
  split; [reflexivity|].
  exact (OutputFileFacts.primary_output_files_distinct "02-gen-prd.md" "02-gen-prd.md"
           "prd.md" eq_refl eq_refl).
Defined.

End FactWitnesses.
